(** * Prosody integration fixture: configuration options and default assembly

    A shallow embedding of [internal/integration/prosody/prosody.go].  The Go
    options are functions from a pointer to the builder [integration.Cmd] to
    [error] that mutate the shared builder; here they are computations in a
    state-and-error monad over the builder and the operating system it talks
    to.  Closures handed to [integration.TempFile] and [integration.Defer] are
    defunctionalised: one constructor per closure of the source, carrying the
    captured variables.

    Go slices are lists here.  The options copy the [Config] struct out of
    the builder, append to the copy and store it back, and a closure captures
    its [cfg] by value; an append never writes below the length of the slice
    it extends, so no value captured earlier is changed by a later option. *)

From Stdlib Require Import List String Ascii ZArith Bool Lia.
Import ListNotations.
Local Open Scope string_scope.
Local Open Scope list_scope.

(** ** Constants of the package (prosody.go, lines 20-24) *)

Definition cfgFileName : string := "prosody.cfg.lua".
Definition cmdName : string := "prosody".
Definition configFlag : string := "--config".

(** ** Addresses *)

Module jid.

(** Modelled from the spec: the address type of package [jid], which is not
    part of the files at hand.  The spec speaks of a local part and a domain
    part; the zero value [JID{}] has both empty. *)
Record JID : Type := mkJID { Localpart : string; Domainpart : string }.

Definition zero : JID := mkJID EmptyString EmptyString.

Definition Equal (a b : JID) : bool :=
  String.eqb (Localpart a) (Localpart b) && String.eqb (Domainpart a) (Domainpart b).

(** Modelled from the spec: the split of "identity@host" that [jid.Parse]
    makes; [cut s] splits [s] at its first '@'. *)
Fixpoint cut (s : string) : option (string * string) :=
  match s with
  | EmptyString => None
  | String c rest =>
      if Ascii.eqb c "@"%char then Some (EmptyString, rest)
      else match cut rest with
           | Some (l, d) => Some (String c l, d)
           | None => None
           end
  end.

(** [hasAt s] tells whether '@' occurs in [s]. *)
Fixpoint hasAt (s : string) : bool :=
  match s with
  | EmptyString => false
  | String c rest => Ascii.eqb c "@"%char || hasAt rest
  end.

(** Modelled from the spec: [jid.Parse], "parse identity@host into
    local/domain parts, fail on malformed input", where the one malformed
    shape the spec names is an address without '@'.  [None] is the parse
    error. *)
Definition Parse (addr : string) : option JID :=
  match cut addr with
  | Some (l, d) => Some (mkJID l d)
  | None => None
  end.

End jid.

(** ** The Configuration Value *)

Module Config.

(** Modelled from the spec: the struct [Config], which is declared in another
    file of the package.  The data model of the spec and the uses in
    prosody.go give it these four fields (the config directory is not a field
    but part of the template data).  Ports are Go [int]s; the zero value is
    [Config{}]. *)
Record t : Type := mk
  { C2SPort : Z;
    S2SPort : Z;
    VHosts  : list string;
    Modules : list string }.

Definition zero : t := mk 0%Z 0%Z [] [].

Definition with_C2SPort (p : Z) (c : t) : t := mk p (S2SPort c) (VHosts c) (Modules c).
Definition with_S2SPort (p : Z) (c : t) : t := mk (C2SPort c) p (VHosts c) (Modules c).
Definition with_VHosts (v : list string) (c : t) : t := mk (C2SPort c) (S2SPort c) v (Modules c).
Definition with_Modules (m : list string) (c : t) : t := mk (C2SPort c) (S2SPort c) (VHosts c) m.

End Config.

(** ** Closures registered on the builder *)

(** The writer functions passed to [integration.TempFile]: the template
    closure of [ConfigFile], which captures [cfg], and the closure of
    [TrustAll], which writes a literal. *)
Inductive Writer : Type :=
| TmplWriter (cfg : Config.t)
| StringWriter (content : string).

(** The functions passed to [integration.Defer]: the closure of [Ctl], which
    captures [args]. *)
Inductive Deferred : Type :=
| CtlFunc (args : list string).

(** What the [interface{}] slot [cmd.Config] can hold: a [Config] of this
    package, or a value of some other dynamic type (named by [ty]). *)
Inductive Blob : Type :=
| ProsodyConfig (cfg : Config.t)
| Foreign (ty : string).

(** ** The builder *)

Module Cmd.

(** Modelled from the spec: [integration.Cmd], "a builder type exposing
    arbitrary command-line arguments, a config-directory path, a slot for an
    opaque caller-defined configuration blob, a deferred-file-write
    registration mechanism, [...] and an identity-slot getter/setter".
    [Config = None] is the nil interface. *)
Record t : Type := mk
  { Args   : list string;
    cfgDir : string;
    Config : option Blob;
    cfgF   : list (string * Writer);
    deferF : list Deferred;
    user   : jid.JID;
    pass   : string }.

Definition with_Args (a : list string) (c : t) : t :=
  mk a (cfgDir c) (Config c) (cfgF c) (deferF c) (user c) (pass c).
Definition with_Config (b : option Blob) (c : t) : t :=
  mk (Args c) (cfgDir c) b (cfgF c) (deferF c) (user c) (pass c).
Definition with_cfgF (f : list (string * Writer)) (c : t) : t :=
  mk (Args c) (cfgDir c) (Config c) f (deferF c) (user c) (pass c).
Definition with_deferF (d : list Deferred) (c : t) : t :=
  mk (Args c) (cfgDir c) (Config c) (cfgF c) d (user c) (pass c).
Definition with_User (j : jid.JID) (p : string) (c : t) : t :=
  mk (Args c) (cfgDir c) (Config c) (cfgF c) (deferF c) j p.

End Cmd.

(** ** The operating system *)

(** What the system answers to one request for a listener on port 0: the bind
    fails, or a listener on [port] is handed out whose [Close] will succeed or
    not. *)
Inductive ListenAnswer : Type :=
| BindFails
| Bound (port : Z) (closeOK : bool).

(** A [net.Listener] on a TCP address. *)
Record Listener : Type := mkListener { lport : Z; lcloseOK : bool }.

(** Effects that leave the process. *)
Inductive Event : Type :=
| EvListen (network addr : string) (port : Z)
| EvClose (port : Z)
| EvCert (name : string)
| EvRun (argv : list string)
| EvWrite (path content : string).

(** The environment: the answers it will give (to the successive listen
    calls, to a certificate request for a name, to running an external
    command) and the trace of effects so far. *)
Record World : Type := mkWorld
  { answers   : list ListenAnswer;
    certFails : string -> bool;
    runFails  : list string -> bool;
    trace     : list Event }.

Definition with_answers (a : list ListenAnswer) (w : World) : World :=
  mkWorld a (certFails w) (runFails w) (trace w).
Definition emit (e : Event) (w : World) : World :=
  mkWorld (answers w) (certFails w) (runFails w) (trace w ++ [e]).

(** ** State, errors and the monad of options *)

Record St : Type := mkSt { cmd : Cmd.t; os : World }.

Definition on_cmd (f : Cmd.t -> Cmd.t) (s : St) : St := mkSt (f (cmd s)) (os s).
Definition on_os (f : World -> World) (s : St) : St := mkSt (cmd s) (f (os s)).

(** Go [error] values that the options can return. *)
Inductive error : Type :=
| ErrParse (addr : string)
| ErrBind
| ErrClose
| ErrCert (name : string)
| ErrRun (argv : list string)
| ErrTemplate.

(** Run-time panics: a failed type assertion, an index out of range. *)
Inductive panic : Type :=
| PanicTypeAssertion
| PanicIndex.

(** A Go call returns a value (for an [error] result, [Ret tt] is [nil]),
    returns a non-nil error, or panics. *)
Inductive outcome (A : Type) : Type :=
| Ret (a : A)
| Err (e : error)
| Panic (p : panic).
Arguments Ret {A} a.
Arguments Err {A} e.
Arguments Panic {A} p.

Definition M (A : Type) : Type := St -> outcome A * St.

Definition ret {A} (a : A) : M A := fun s => (Ret a, s).
Definition fail {A} (e : error) : M A := fun s => (Err e, s).
Definition throw {A} (p : panic) : M A := fun s => (Panic p, s).

(** [bind m k] is [x, err := m; if err != nil { return err }; k x]. *)
Definition bind {A B} (m : M A) (k : A -> M B) : M B :=
  fun s =>
    match m s with
    | (Ret a, s') => k a s'
    | (Err e, s') => (Err e, s')
    | (Panic p, s') => (Panic p, s')
    end.

Definition gets {A} (f : St -> A) : M A := fun s => (Ret (f s), s).
Definition modify (f : St -> St) : M unit := fun s => (Ret tt, f s).

Declare Scope go_scope.
Delimit Scope go_scope with go.
Notation "x <- m ;; k" := (bind m (fun x => k))
  (at level 61, m at next level, right associativity) : go_scope.
Notation "m ;; k" := (bind m (fun _ => k))
  (at level 61, right associativity) : go_scope.
Local Open Scope go_scope.

(** [integration.Option] *)
Definition Option : Type := M unit.

(** The result and the final state of a computation. *)
Definition result {A} (m : M A) (s : St) : outcome A := fst (m s).
Definition after {A} (m : M A) (s : St) : St := snd (m s).

(** ** Package integration: what the options of this package call *)

Module integration.

(** Modelled from the spec: [integration.Args], which appends to the
    command-line arguments of the builder ("appends a command-line flag
    pointing the daemon at that file"). *)
Definition Args (f : list string) : Option :=
  modify (on_cmd (fun c => Cmd.with_Args (Cmd.Args c ++ f) c)).

(** Modelled from the spec: [integration.TempFile], the "deferred-file-write
    registration mechanism": the file name and its writer are queued, and the
    writer runs at render time. *)
Definition TempFile (name : string) (f : Writer) : Option :=
  modify (on_cmd (fun c => Cmd.with_cfgF (Cmd.cfgF c ++ [(name, f)]) c)).

(** Modelled from the spec: [integration.Defer], which queues a function to
    be run later ("deferred; at execution time, synchronously runs the
    daemon's admin tool"). *)
Definition Defer (f : Deferred) : Option :=
  modify (on_cmd (fun c => Cmd.with_deferF (Cmd.deferF c ++ [f]) c)).

(** Modelled from the spec: [integration.User], the setter of the identity
    slot ("records the identity and password as the fixture's default
    authenticated identity"). *)
Definition User (user : jid.JID) (pass : string) : Option :=
  modify (on_cmd (Cmd.with_User user pass)).

(** Modelled from the spec: [integration.Cert], "issue self-signed
    certificate for hostname", a request to an external collaborator that
    the environment may refuse. *)
Definition Cert (name : string) : Option :=
  fun s =>
    if certFails (os s) name then (Err (ErrCert name), s)
    else (Ret tt, on_os (emit (EvCert name)) s).

(** Modelled from the spec: the method [cmd.ConfigDir()], the
    config-directory path. *)
Definition Cmd_ConfigDir : M string := gets (fun s => Cmd.cfgDir (cmd s)).

(** Modelled from the spec: the method [cmd.User()], the getter of the
    identity slot. *)
Definition Cmd_User : M (jid.JID * string) :=
  gets (fun s => (Cmd.user (cmd s), Cmd.pass (cmd s))).

(** Modelled from the spec: the listener-acquisition methods, "open a TCP
    listener on the loopback address with port 0 (OS-assigned)"; "bind
    failure (propagated)".  The system answers each request with the next of
    its [answers]; with none left the bind fails. *)
Definition listen (network addr : string) : M Listener :=
  fun s =>
    match answers (os s) with
    | Bound p ok :: rest =>
        (Ret (mkListener p ok),
         on_os (fun w => emit (EvListen network addr p) (with_answers rest w)) s)
    | BindFails :: rest => (Err ErrBind, on_os (with_answers rest) s)
    | [] => (Err ErrBind, s)
    end.
Definition Cmd_C2SListen : string -> string -> M Listener := listen.
Definition Cmd_S2SListen : string -> string -> M Listener := listen.

(** [l.Addr().( *net.TCPAddr).Port] for a listener of network "tcp". *)
Definition Listener_Port (l : Listener) : Z := lport l.

(** [l.Close()]: "close failure (propagated)". *)
Definition Listener_Close (l : Listener) : M unit :=
  fun s =>
    if lcloseOK l then (Ret tt, on_os (emit (EvClose (lport l))) s)
    else (Err ErrClose, s).

(** Modelled from the spec: the loop of [integration.New] over the options,
    "each is applied in order to a shared builder"; "any combinator failure
    aborts the entire option-application sequence". *)
Fixpoint apply (opts : list Option) : Option :=
  match opts with
  | [] => ret tt
  | opt :: rest => opt ;; apply rest
  end.

(** Modelled from the spec: a builder on which no option has run yet, as
    [integration.New] makes it for the command [name]: the argument list
    holds the command name alone, the configuration slot is nil, no file
    write or deferred call is queued and no identity is recorded. *)
Definition fresh (name dir : string) : Cmd.t :=
  Cmd.mk [name] dir None [] [] jid.zero EmptyString.

End integration.

(** [prosodyCtl.Run()] of package os/exec: the command line is run to its end
    and the environment decides whether it fails. *)
Definition exec_Run (argv : list string) : M unit :=
  fun s =>
    let s' := on_os (emit (EvRun argv)) s in
    if runFails (os s) argv then (Err (ErrRun argv), s') else (Ret tt, s').

(** The anonymous struct that [ConfigFile] hands to the template. *)
Record TmplData : Type := mkTmplData { td_Config : Config.t; td_ConfigDir : string }.

(** ** The literal written by TrustAll (prosody.go, lines 189-198) *)

Definition nl : string := String "010"%char EmptyString.
Definition tab : string := String "009"%char EmptyString.
Definition dq : string := String "034"%char EmptyString.

Definition trustScript : string :=
  (nl ++ "module:set_global();" ++ nl
   ++ nl
   ++ "module:hook(" ++ dq ++ "s2s-check-certificate" ++ dq ++ ", function(event)" ++ nl
   ++ tab ++ "local session = event.session;" ++ nl
   ++ tab ++ "module:log(" ++ dq ++ "info" ++ dq ++ ", " ++ dq
          ++ "implicitly trusting presented certificate" ++ dq ++ ");" ++ nl
   ++ tab ++ "session.cert_chain_status = " ++ dq ++ "valid" ++ dq ++ ";" ++ nl
   ++ tab ++ "session.cert_identity_status = " ++ dq ++ "valid" ++ dq ++ ";" ++ nl
   ++ tab ++ "return true;" ++ nl
   ++ "end);")%string.

(** ** A sample environment, for the examples

    A join that puts a slash between its elements, a template that lists the
    virtual hosts one per line, a world that refuses nothing. *)

Definition slashJoin (dir name : string) : string := (dir ++ "/" ++ name)%string.

Definition vhostLines (d : TmplData) : option string :=
  Some (String.concat nl (map (String.append "VirtualHost ") (Config.VHosts (td_Config d)))).

Definition quiet : World := mkWorld [] (fun _ => false) (fun _ => false) [].

Definition sampleDir : string := "/tmp/prosody".

(** A builder on which no option has run. *)
Definition freshState : St := mkSt (integration.fresh cmdName sampleDir) quiet.

(** A builder on which the caller has configured a vhost of their own, and no
    user. *)
Definition ownVHostState : St :=
  mkSt (Cmd.mk [cmdName] sampleDir
          (Some (ProsodyConfig (Config.mk 0 0 ["example.org"] []))) [] []
          jid.zero EmptyString)
       quiet.

(** A builder on which the caller has configured ports, a vhost, a module and
    a user. *)
Definition ownUserState : St :=
  mkSt (Cmd.mk [cmdName] sampleDir
          (Some (ProsodyConfig (Config.mk 5222 5269 ["example.org"] ["mam"]))) [] []
          (jid.mkJID "admin" "example.org") "secret")
       quiet.

(** A builder whose arguments already point at a config file. *)
Definition explicitState : St :=
  mkSt (Cmd.mk [cmdName; configFlag; "/etc/prosody/prosody.cfg.lua"] sampleDir None [] []
          jid.zero EmptyString)
       quiet.

(** A builder whose slot holds the configuration of another package. *)
Definition foreignState : St :=
  mkSt (Cmd.mk [cmdName] sampleDir (Some (Foreign "ejabberd.Config")) [] []
          jid.zero EmptyString)
       quiet.

(** A fresh builder in a world that refuses every certificate. *)
Definition refusedState : St :=
  mkSt (integration.fresh cmdName sampleDir)
       (mkWorld [] (fun _ => true) (fun _ => false) []).

(** A fresh builder in a world whose one listener cannot be closed. *)
Definition stuckListenerState : St :=
  mkSt (integration.fresh cmdName sampleDir) (with_answers [Bound 5222 false] quiet).

(** A fresh builder in a world with two listeners to hand out. *)
Definition twoListenersState : St :=
  mkSt (integration.fresh cmdName sampleDir)
       (with_answers [Bound 5222 true; Bound 5269 true] quiet).

(** A fresh builder in a world where every external command fails. *)
Definition failingCtlState : St :=
  mkSt (integration.fresh cmdName sampleDir)
       (mkWorld [] (fun _ => false) (fun _ => true) []).

(** ** Package prosody *)

Section Prosody.

(** [filepath.Join] of the Go library, on two elements. *)
Variable filepath_Join : string -> string -> string.

(** [cfgTmpl.Execute]: the template [cfgTmpl] is declared in another file of
    the package; it maps the data to the text it writes, or fails. *)
Variable cfgTmpl_Execute : TmplData -> option string.

(** *** Running the registered closures *)

(** The bodies of the two writer closures: the one in [ConfigFile]
    (lines 46-54) executes the template on the captured [cfg] and the
    directory the builder has at that time; the one in [TrustAll]
    (lines 188-200) writes its literal. *)
Definition runWriter (f : Writer) : M string :=
  match f with
  | TmplWriter cfg =>
      dir <- integration.Cmd_ConfigDir ;;
      match cfgTmpl_Execute (mkTmplData cfg dir) with
      | Some text => ret text
      | None => fail ErrTemplate
      end
  | StringWriter content => ret content
  end.

(** The body of the closure in [Ctl] (lines 67-74). *)
Definition runDeferred (f : Deferred) : M unit :=
  match f with
  | CtlFunc args =>
      dir <- integration.Cmd_ConfigDir ;;
      let cfgFilePath := filepath_Join dir cfgFileName in
      let prosodyCtl_Args := ["prosodyctl"; configFlag; cfgFilePath] in
      let prosodyCtl_Args := prosodyCtl_Args ++ args in
      exec_Run prosodyCtl_Args
  end.

(** Modelled from the spec: the render step of the lifecycle manager, which
    "renders any pending files": each queued file is created in the config
    directory and filled by its writer, in the order of registration. *)
Fixpoint writeFiles (fs : list (string * Writer)) : M unit :=
  match fs with
  | [] => ret tt
  | (name, f) :: rest =>
      dir <- integration.Cmd_ConfigDir ;;
      text <- runWriter f ;;
      modify (on_os (emit (EvWrite (filepath_Join dir name) text))) ;;
      writeFiles rest
  end.

Definition render : M unit :=
  fs <- gets (fun s => Cmd.cfgF (cmd s)) ;; writeFiles fs.

(** Modelled from the spec: the deferred calls run after the daemon is
    started, in the order of registration, the first failure aborting. *)
Fixpoint runAll (ds : list Deferred) : M unit :=
  match ds with
  | [] => ret tt
  | d :: rest => runDeferred d ;; runAll rest
  end.

Definition runDeferreds : M unit :=
  ds <- gets (fun s => Cmd.deferF (cmd s)) ;; runAll ds.

(** *** The options (prosody.go) *)

(** [cmd.Config = cfg] *)
Definition setConfig (cfg : Config.t) : M unit :=
  modify (on_cmd (Cmd.with_Config (Some (ProsodyConfig cfg)))).

(** Lines 43-61. *)
Definition ConfigFile (cfg : Config.t) : Option :=
  setConfig cfg ;;
  integration.TempFile cfgFileName (TmplWriter cfg) ;;
  dir <- integration.Cmd_ConfigDir ;;
  let cfgFilePath := filepath_Join dir cfgFileName in
  integration.Args [configFlag; cfgFilePath].

(** Lines 66-75. *)
Definition Ctl (args : list string) : Option :=
  integration.Defer (CtlFunc args).

(** Lines 77-82: a nil slot is first set to [Config{}]; then the type
    assertion [cmd.Config.(Config)], which panics on any other type. *)
Definition getConfig : M Config.t :=
  fun s =>
    let s := match Cmd.Config (cmd s) with
             | None => on_cmd (Cmd.with_Config (Some (ProsodyConfig Config.zero))) s
             | Some _ => s
             end in
    match Cmd.Config (cmd s) with
    | Some (ProsodyConfig cfg) => (Ret cfg, s)
    | _ => (Panic PanicTypeAssertion, s)
    end.

(** Lines 85-108. *)
Definition ListenC2S : Option :=
  c2sListener <- integration.Cmd_C2SListen "tcp" "[::1]:0" ;;
  let c2sPort := integration.Listener_Port c2sListener in
  integration.Listener_Close c2sListener ;;
  cfg <- getConfig ;;
  let cfg := Config.with_C2SPort c2sPort cfg in
  setConfig cfg.

(** Lines 111-134. *)
Definition ListenS2S : Option :=
  s2sListener <- integration.Cmd_S2SListen "tcp" "[::1]:0" ;;
  let s2sPort := integration.Listener_Port s2sListener in
  integration.Listener_Close s2sListener ;;
  cfg <- getConfig ;;
  let cfg := Config.with_S2SPort s2sPort cfg in
  setConfig cfg.

(** Lines 140-147. *)
Definition VHost (hosts : list string) : Option :=
  cfg <- getConfig ;;
  let cfg := Config.with_VHosts (Config.VHosts cfg ++ hosts) cfg in
  setConfig cfg.

(** Lines 153-165. *)
Definition CreateUser (addr pass : string) : Option :=
  match jid.Parse addr with
  | None => fail (ErrParse addr)
  | Some j =>
      Ctl ["register"; jid.Localpart j; jid.Domainpart j; pass] ;;
      integration.User j pass
  end.

(** Lines 168-177: the loop appends the names one at a time. *)
Definition Modules (mods : list string) : Option :=
  cfg <- getConfig ;;
  let cfg := fold_left (fun cfg m => Config.with_Modules (Config.Modules cfg ++ [m]) cfg)
               mods cfg in
  setConfig cfg.

(** Line 182. *)
Definition modName : string := "trustall".

(** Lines 181-202. *)
Definition TrustAll : Option :=
  Modules [modName] ;;
  integration.TempFile ("mod_" ++ modName ++ ".lua")%string (StringWriter trustScript).

(** The loop of lines 205-209: is some argument the config flag? *)
Fixpoint hasConfigFlag (args : list string) : bool :=
  match args with
  | [] => false
  | arg :: rest => if String.eqb arg configFlag then true else hasConfigFlag rest
  end.

(** [s[i]] on a slice: a panic when [i] is out of range. *)
Definition index (l : list string) (i : nat) : M string :=
  match nth_error l i with
  | Some x => ret x
  | None => throw PanicIndex
  end.

(** Lines 204-229. *)
Definition defaultConfig : Option :=
  args <- gets (fun s => Cmd.Args (cmd s)) ;;
  if hasConfigFlag args then ret tt
  else
    cfg <- getConfig ;;
    cfg <- (if Nat.eqb (List.length (Config.VHosts cfg)) 0 then
              let vhost := "localhost" in
              let cfg := Config.with_VHosts (Config.VHosts cfg ++ [vhost]) cfg in
              integration.Cert vhost ;;
              ret cfg
            else ret cfg) ;;
    setConfig cfg ;;
    ju <- integration.Cmd_User ;;
    (if jid.Equal (fst ju) jid.zero then
       h <- index (Config.VHosts cfg) 0 ;;
       CreateUser ("me@" ++ h)%string "password"
     else ret tt) ;;
    ConfigFile cfg.

(** Lines 236-239: the options of the caller, then [defaultConfig]. *)
Definition Test (opts : list Option) : Option :=
  let opts := opts ++ [defaultConfig] in
  integration.apply opts.

(** Lines 30-35: the options of the caller and nothing else; unlike [Test],
    no [defaultConfig] is appended. *)
Definition New (opts : list Option) : Option :=
  integration.apply opts.

(** *** Views of the builder used in the statements *)

(** The slot is nil or holds a [Config] of this package. *)
Definition slotOK (c : Cmd.t) : bool :=
  match Cmd.Config c with
  | Some (Foreign _) => false
  | _ => true
  end.

(** The Configuration Value of a builder: what [getConfig] reads from it
    (the empty configuration for a nil slot). *)
Definition configOf (c : Cmd.t) : Config.t :=
  match Cmd.Config c with
  | Some (ProsodyConfig cfg) => cfg
  | _ => Config.zero
  end.

(** The module [m] is enabled in the configuration stored on the builder. *)
Definition enabled (m : string) (c : Cmd.t) : Prop :=
  match Cmd.Config c with
  | Some (ProsodyConfig cfg) => In m (Config.Modules cfg)
  | _ => False
  end.

(** The builder with [cfg] stored in its slot. *)
Definition put (cfg : Config.t) (s : St) : St :=
  on_cmd (Cmd.with_Config (Some (ProsodyConfig cfg))) s.

Definition panics {A} (o : outcome A) : bool :=
  match o with
  | Panic _ => true
  | _ => false
  end.

(** The options of the package, as values. *)
Inductive Opt : Type :=
| OConfigFile (cfg : Config.t)
| OCtl (args : list string)
| OListenC2S
| OListenS2S
| OVHost (hosts : list string)
| OCreateUser (addr pass : string)
| OModules (mods : list string)
| OTrustAll
| ODefaultConfig.

Definition run (o : Opt) : Option :=
  match o with
  | OConfigFile cfg => ConfigFile cfg
  | OCtl args => Ctl args
  | OListenC2S => ListenC2S
  | OListenS2S => ListenS2S
  | OVHost hosts => VHost hosts
  | OCreateUser addr pass => CreateUser addr pass
  | OModules mods => Modules mods
  | OTrustAll => TrustAll
  | ODefaultConfig => defaultConfig
  end.

(** The options that go through the structured configuration, that is, all
    but the explicit config file. *)
Definition structured (o : Opt) : bool :=
  match o with
  | OConfigFile _ => false
  | _ => true
  end.

(** The options that neither write the config file themselves nor assemble
    the default one. *)
Definition plain (o : Opt) : bool :=
  match o with
  | OConfigFile _ => false
  | ODefaultConfig => false
  | _ => true
  end.

(** The writers queued under the name of the config file. *)
Definition configWriters (fs : list (string * Writer)) : list Writer :=
  map snd (filter (fun nf => String.eqb (fst nf) cfgFileName) fs).

(** The arguments of a call of [VHost] or [Modules]. *)
Inductive Call : Type :=
| CallVHost (hosts : list string)
| CallModules (mods : list string).

Definition optionOf (c : Call) : Option :=
  match c with
  | CallVHost hosts => VHost hosts
  | CallModules mods => Modules mods
  end.

Definition vhostArgs (c : Call) : list string :=
  match c with
  | CallVHost hosts => hosts
  | CallModules _ => []
  end.

Definition moduleArgs (c : Call) : list string :=
  match c with
  | CallVHost _ => []
  | CallModules mods => mods
  end.

(** *** Basic facts *)

Lemma hasConfigFlag_In (args : list string) :
  hasConfigFlag args = true <-> In configFlag args.
Proof.
  induction args as [|arg rest IH]; cbn [hasConfigFlag In].
  - split; [discriminate | tauto].
  - destruct (String.eqb_spec arg configFlag) as [->|ne].
    + split; auto.
    + rewrite IH. split; [auto | intros [e|i]; [contradiction | exact i]].
Qed.

Lemma hasConfigFlag_app (args more : list string) :
  hasConfigFlag (args ++ more) = hasConfigFlag args || hasConfigFlag more.
Proof.
  induction args as [|arg rest IH]; cbn [hasConfigFlag app]; [reflexivity|].
  destruct (String.eqb arg configFlag); [reflexivity | exact IH].
Qed.

(** The loop of [Modules] appends the whole slice. *)
Lemma append_each (mods : list string) (cfg : Config.t) :
  fold_left (fun cfg m => Config.with_Modules (Config.Modules cfg ++ [m]) cfg) mods cfg
  = Config.with_Modules (Config.Modules cfg ++ mods) cfg.
Proof.
  revert cfg; induction mods as [|m mods IH]; intros cfg; cbn [fold_left].
  - rewrite app_nil_r. destruct cfg; reflexivity.
  - rewrite IH. unfold Config.with_Modules; cbn. rewrite <- app_assoc. reflexivity.
Qed.

(** [jid.Parse] fails exactly on the addresses without '@'. *)
Lemma cut_hasAt (s : string) : jid.cut s = None <-> jid.hasAt s = false.
Proof.
  induction s as [|c rest IH]; cbn [jid.cut jid.hasAt]; [tauto|].
  destruct (Ascii.eqb c "@"%char); cbn [orb].
  - split; discriminate.
  - rewrite <- IH. destruct (jid.cut rest) as [[l d]|]; split; congruence.
Qed.

Lemma Parse_hasAt (addr : string) : jid.Parse addr = None <-> jid.hasAt addr = false.
Proof.
  rewrite <- cut_hasAt. unfold jid.Parse.
  destruct (jid.cut addr) as [[l d]|]; split; congruence.
Qed.

(** An address "me@h" parses to local part "me" and domain part [h]. *)
Lemma Parse_me (h : string) :
  jid.Parse ("me@" ++ h)%string = Some (jid.mkJID "me" h).
Proof. reflexivity. Qed.

(** *** What each option does to a builder whose slot is well typed *)

(** Unfolding of the monad and of the collaborators, then computation. *)
Ltac simp_go :=
  repeat progress
    (cbv [bind ret fail throw gets modify
          integration.Args integration.TempFile integration.Defer integration.User
          integration.Cert integration.Cmd_ConfigDir integration.Cmd_User
          integration.Cmd_C2SListen integration.Cmd_S2SListen integration.listen
          integration.Listener_Port integration.Listener_Close exec_Run
          setConfig Ctl index] in *;
     cbn in *).

Ltac open_state s :=
  destruct s as [[args dir [[cfg0|ty]|] fs ds u p] w]; try discriminate.

Lemma getConfig_run (s : St) :
  slotOK (cmd s) = true ->
  getConfig s = (Ret (configOf (cmd s)), put (configOf (cmd s)) s).
Proof. open_state s; reflexivity. Qed.

Lemma VHost_run (hosts : list string) (s : St) :
  slotOK (cmd s) = true ->
  VHost hosts s =
  (Ret tt, put (Config.with_VHosts (Config.VHosts (configOf (cmd s)) ++ hosts)
                                   (configOf (cmd s))) s).
Proof. open_state s; reflexivity. Qed.

Lemma Modules_run (mods : list string) (s : St) :
  slotOK (cmd s) = true ->
  Modules mods s =
  (Ret tt, put (Config.with_Modules (Config.Modules (configOf (cmd s)) ++ mods)
                                    (configOf (cmd s))) s).
Proof.
  intros ok. unfold Modules, bind. rewrite (getConfig_run s ok), append_each.
  reflexivity.
Qed.

Lemma put_slotOK (cfg : Config.t) (s : St) : slotOK (cmd (put cfg s)) = true.
Proof. reflexivity. Qed.

Lemma put_configOf (cfg : Config.t) (s : St) : configOf (cmd (put cfg s)) = cfg.
Proof. reflexivity. Qed.

(** One call of [VHost] or [Modules] succeeds and appends its arguments to
    its own list. *)
Lemma optionOf_run (c : Call) (s : St) :
  slotOK (cmd s) = true ->
  exists s',
    optionOf c s = (Ret tt, s') /\
    slotOK (cmd s') = true /\
    Config.VHosts (configOf (cmd s')) = Config.VHosts (configOf (cmd s)) ++ vhostArgs c /\
    Config.Modules (configOf (cmd s')) = Config.Modules (configOf (cmd s)) ++ moduleArgs c.
Proof.
  intros ok. destruct c as [hosts|mods]; cbn [optionOf vhostArgs moduleArgs].
  - rewrite (VHost_run hosts s ok). eexists; split; [reflexivity|].
    rewrite put_slotOK, put_configOf, app_nil_r. auto.
  - rewrite (Modules_run mods s ok). eexists; split; [reflexivity|].
    rewrite put_slotOK, put_configOf, app_nil_r. auto.
Qed.

Lemma calls_run (calls : list Call) : forall s : St,
  slotOK (cmd s) = true ->
  exists s',
    integration.apply (map optionOf calls) s = (Ret tt, s') /\
    Config.VHosts (configOf (cmd s'))
    = Config.VHosts (configOf (cmd s)) ++ List.concat (map vhostArgs calls) /\
    Config.Modules (configOf (cmd s'))
    = Config.Modules (configOf (cmd s)) ++ List.concat (map moduleArgs calls).
Proof.
  induction calls as [|c calls IH]; intros s ok; cbn [map List.concat integration.apply].
  - exists s. rewrite !app_nil_r. auto.
  - destruct (optionOf_run c s ok) as (s1 & run1 & ok1 & v1 & m1).
    destruct (IH s1 ok1) as (s' & run' & v' & m').
    exists s'. unfold bind. rewrite run1.
    rewrite v', m', v1, m1, <- !app_assoc. auto.
Qed.

(** C2: any sequence of [VHost] and [Modules] calls, in any interleaving,
    succeeds on a builder whose slot is well typed; afterwards the vhost
    list is the earlier list followed by the arguments of all [VHost] calls
    in call order, and the module list is the earlier list followed by the
    arguments of all [Modules] calls in call order.  Nothing is dropped or
    merged: on a builder that had no configuration yet, the lists are
    exactly the concatenations. *)
Theorem VHost_Modules_concatenate (calls : list Call) (s : St) :
  slotOK (cmd s) = true ->
  let opts := map optionOf calls in
  let s' := after (integration.apply opts) s in
  result (integration.apply opts) s = Ret tt /\
  Config.VHosts (configOf (cmd s'))
  = Config.VHosts (configOf (cmd s)) ++ List.concat (map vhostArgs calls) /\
  Config.Modules (configOf (cmd s'))
  = Config.Modules (configOf (cmd s)) ++ List.concat (map moduleArgs calls) /\
  (Cmd.Config (cmd s) = None ->
   Config.VHosts (configOf (cmd s')) = List.concat (map vhostArgs calls) /\
   Config.Modules (configOf (cmd s')) = List.concat (map moduleArgs calls)).
Proof.
  intros ok opts s'. subst opts s'. unfold result, after.
  destruct (calls_run calls s ok) as (s' & run' & v & m).
  rewrite run'. cbn [fst snd].
  split; [reflexivity|]. split; [exact v|]. split; [exact m|].
  intros none. rewrite v, m. unfold configOf. rewrite none. auto.
Qed.

(** *** Rendering *)

(** One step of the render loop. *)
Lemma writeFiles_cons (name : string) (f : Writer) (rest : list (string * Writer)) (s : St) :
  writeFiles ((name, f) :: rest) s =
  match runWriter f s with
  | (Ret text, _) =>
      writeFiles rest (on_os (emit (EvWrite (filepath_Join (Cmd.cfgDir (cmd s)) name) text)) s)
  | (Err e, _) => (Err e, s)
  | (Panic p, _) => (Panic p, s)
  end.
Proof.
  destruct f as [cfg|content]; cbn [writeFiles runWriter]; simp_go;
    [destruct (cfgTmpl_Execute _)|]; reflexivity.
Qed.

(** What a writer writes: the template on the captured [cfg] and the
    directory of the builder, or the literal. *)
Lemma runWriter_text (f : Writer) (s : St) :
  result (runWriter f) s =
  match f with
  | TmplWriter cfg =>
      match cfgTmpl_Execute (mkTmplData cfg (Cmd.cfgDir (cmd s))) with
      | Some text => Ret text
      | None => Err ErrTemplate
      end
  | StringWriter content => Ret content
  end.
Proof.
  destruct f as [cfg|content]; unfold result, runWriter; simp_go;
    [destruct (cfgTmpl_Execute _)|]; reflexivity.
Qed.

(** Rendering touches the trace only, and only by extending it. *)
Lemma writeFiles_frame (fs : list (string * Writer)) : forall s : St,
  cmd (after (writeFiles fs) s) = cmd s /\
  (forall e, In e (trace (os s)) -> In e (trace (os (after (writeFiles fs) s)))).
Proof.
  induction fs as [|[name f] fs IH]; intros s; unfold after in *.
  - cbn. auto.
  - rewrite writeFiles_cons.
    destruct (runWriter f s) as [[text| |] s1]; cbn [snd]; auto.
    destruct (IH (on_os (emit (EvWrite (filepath_Join (Cmd.cfgDir (cmd s)) name) text)) s))
      as [same more].
    split; [exact same|].
    intros e old. apply more. cbn. apply in_or_app. auto.
Qed.

(** A successful render has written every queued file, under its name, with
    the text of its writer. *)
Lemma writeFiles_written (name : string) (f : Writer) (fs : list (string * Writer)) :
  forall s : St,
    In (name, f) fs ->
    result (writeFiles fs) s = Ret tt ->
    exists text : string,
      result (runWriter f) s = Ret text /\
      In (EvWrite (filepath_Join (Cmd.cfgDir (cmd s)) name) text)
         (trace (os (after (writeFiles fs) s))).
Proof.
  induction fs as [|[name' f'] fs IH]; intros s queued done; [contradiction|].
  unfold after in *. unfold result in done. rewrite writeFiles_cons in *.
  pose proof (runWriter_text f' s) as text'. unfold result in text'.
  destruct (runWriter f' s) as [[text| |] s1]; cbn [fst] in *; try discriminate.
  destruct queued as [here|later].
  - inversion here; subst name' f'. exists text. split.
    + rewrite runWriter_text. symmetry. exact text'.
    + apply writeFiles_frame. cbn. apply in_or_app. right. left. reflexivity.
  - destruct (IH _ later done) as (t & same & written).
    exists t. split; [|exact written].
    rewrite runWriter_text in *. exact same.
Qed.

Lemma render_written (name : string) (f : Writer) (s : St) :
  In (name, f) (Cmd.cfgF (cmd s)) ->
  result render s = Ret tt ->
  exists text : string,
    result (runWriter f) s = Ret text /\
    In (EvWrite (filepath_Join (Cmd.cfgDir (cmd s)) name) text)
       (trace (os (after render s))).
Proof.
  unfold render, result, after, bind, gets. simpl. apply writeFiles_written.
Qed.

(** *** The default assembly, case by case *)

(** With the config flag among the arguments the function returns at once. *)
Lemma defaultConfig_flag (s : St) :
  hasConfigFlag (Cmd.Args (cmd s)) = true -> defaultConfig s = (Ret tt, s).
Proof. intros flag. unfold defaultConfig, bind, gets. rewrite flag. reflexivity. Qed.

(** [ConfigFile] stores [cfg], queues the template writer that captured it
    and appends the flag and the path. *)
Lemma ConfigFile_run (cfg : Config.t) (s : St) :
  ConfigFile cfg s =
  (Ret tt,
   on_cmd (fun c =>
             Cmd.with_Args
               (Cmd.Args c ++ [configFlag; filepath_Join (Cmd.cfgDir c) cfgFileName])
               (Cmd.with_cfgF (Cmd.cfgF c ++ [(cfgFileName, TmplWriter cfg)])
                  (Cmd.with_Config (Some (ProsodyConfig cfg)) c))) s).
Proof. reflexivity. Qed.

(** C1: on a builder on which no option has run (so also as [Test] runs it
    for a caller who gives no options), and when the certificate
    collaborator does not refuse, [defaultConfig] succeeds; it leaves the
    configuration with the single vhost "localhost", has requested a
    certificate for "localhost", has queued the registration of me /
    localhost / password with the admin tool and recorded me@localhost with
    password "password" as the identity of the fixture, and has queued one
    config file, whose template data holds exactly that vhost.  Rendering
    then writes that one file, and running the deferred calls runs the
    registration against it. *)
Theorem defaultConfig_fresh (dir : string) (w : World) :
  certFails w "localhost" = false ->
  let cfg := Config.mk 0 0 ["localhost"] [] in
  let path := filepath_Join dir cfgFileName in
  let s1 :=
    mkSt (Cmd.mk [cmdName; configFlag; path] dir (Some (ProsodyConfig cfg))
            [(cfgFileName, TmplWriter cfg)]
            [CtlFunc ["register"; "me"; "localhost"; "password"]]
            (jid.mkJID "me" "localhost") "password")
         (emit (EvCert "localhost") w) in
  defaultConfig (mkSt (integration.fresh cmdName dir) w) = (Ret tt, s1) /\
  Test [] (mkSt (integration.fresh cmdName dir) w) = (Ret tt, s1) /\
  (forall text : string,
      cfgTmpl_Execute (mkTmplData cfg dir) = Some text ->
      render s1 = (Ret tt, on_os (emit (EvWrite path text)) s1)) /\
  trace (os (after runDeferreds s1))
  = trace (os s1)
    ++ [EvRun ["prosodyctl"; configFlag; path; "register"; "me"; "localhost"; "password"]].
Proof.
  intros certOK cfg path s1. subst cfg path s1. split; [|split; [|split]].
  - unfold defaultConfig; simp_go. rewrite certOK. reflexivity.
  - unfold Test, defaultConfig; simp_go. rewrite certOK. reflexivity.
  - intros text exec. unfold render; simp_go. rewrite exec. reflexivity.
  - unfold after, runDeferreds; simp_go.
    destruct (runFails w _); reflexivity.
Qed.

(** *** Invariants of the options *)

Ltac open_all s :=
  destruct s as [[s_args s_dir [[[s_c2s s_s2s [|s_h s_vhosts] s_mods]|s_ty]|] s_fs s_ds s_u s_p]
                   [s_ans s_cf s_rf s_tr]].

Ltac cases :=
  repeat (simp_go;
          match goal with
          | |- context [match ?x with _ => _ end] =>
              lazymatch x with
              | context [match _ with _ => _ end] => fail
              | _ => destruct x eqn:?
              end
          end);
  simp_go.

Ltac unfold_options :=
  unfold after, result, run, TrustAll, ListenC2S, ListenS2S, VHost, Modules, CreateUser,
    ConfigFile, defaultConfig, getConfig in *.

(** A property that every option of a sequence preserves, whatever its
    outcome, holds after the sequence, however far it got. *)
Lemma apply_invariant (P : St -> Prop) (sel : Opt -> bool) :
  (forall o s, sel o = true -> P s -> P (after (run o) s)) ->
  forall opts s,
    forallb sel opts = true -> P s -> P (after (integration.apply (map run opts)) s).
Proof.
  intros step opts. induction opts as [|o opts IH]; intros s all Ps.
  - exact Ps.
  - cbn [forallb] in all. apply andb_true_iff in all as [so all].
    specialize (step o s so Ps). unfold after in *.
    cbn [map integration.apply]. unfold bind.
    destruct (run o s) as [[[]| |] s1]; cbn [snd] in *; auto.
Qed.

(** No option removes an argument: the config flag, once there, stays. *)
Lemma run_keeps_flag (o : Opt) (s : St) :
  hasConfigFlag (Cmd.Args (cmd s)) = true ->
  hasConfigFlag (Cmd.Args (cmd (after (run o) s))) = true.
Proof.
  intros flag. destruct o;
    try (unfold after, run; rewrite (defaultConfig_flag s flag); exact flag);
    open_all s; unfold_options; cases;
    rewrite ?hasConfigFlag_app, ?flag; auto.
Qed.

(** With the flag present, no structured option queues a config file. *)
Lemma run_keeps_configWriters (o : Opt) (s : St) :
  structured o = true ->
  hasConfigFlag (Cmd.Args (cmd s)) = true ->
  configWriters (Cmd.cfgF (cmd (after (run o) s))) = configWriters (Cmd.cfgF (cmd s)).
Proof.
  intros so flag. destruct o; try discriminate;
    try (unfold after, run; rewrite (defaultConfig_flag s flag); reflexivity);
    open_all s; unfold_options; cases;
    unfold configWriters; rewrite ?filter_app, ?map_app; cbn; rewrite ?app_nil_r;
    reflexivity.
Qed.

(** No option takes a file out of the queue. *)
Lemma run_keeps_files (f : string * Writer) (o : Opt) (s : St) :
  In f (Cmd.cfgF (cmd s)) -> In f (Cmd.cfgF (cmd (after (run o) s))).
Proof.
  intros queued. destruct o; open_all s; unfold_options; cases;
    rewrite ?in_app_iff; auto.
Qed.

(** C3: with "--config" among the arguments, [defaultConfig] returns
    success and leaves the whole state as it is: configuration, arguments,
    identity, queued files and deferred calls, and no certificate request.
    [ConfigFile] always succeeds, stores its [cfg], queues the template
    writer that captured that [cfg] and puts the flag among the arguments;
    so after [ConfigFile cfg], and after any structured options applied on
    top of it, [defaultConfig] changes nothing, the one writer queued for
    the config file is the one that renders [cfg] as it was when
    [ConfigFile] was called, and a successful render writes the config file
    with the text of the template on that [cfg]. *)
Theorem defaultConfig_explicit_config :
  (forall s : St,
      In configFlag (Cmd.Args (cmd s)) -> defaultConfig s = (Ret tt, s)) /\
  (forall (cfg : Config.t) (s : St),
      let s1 := after (ConfigFile cfg) s in
      result (ConfigFile cfg) s = Ret tt /\
      In configFlag (Cmd.Args (cmd s1)) /\
      Cmd.Config (cmd s1) = Some (ProsodyConfig cfg) /\
      Cmd.cfgF (cmd s1) = Cmd.cfgF (cmd s) ++ [(cfgFileName, TmplWriter cfg)] /\
      defaultConfig s1 = (Ret tt, s1)) /\
  (forall (cfg : Config.t) (later : list Opt) (s : St),
      forallb structured later = true ->
      let s2 := after (integration.apply (map run later)) (after (ConfigFile cfg) s) in
      defaultConfig s2 = (Ret tt, s2) /\
      configWriters (Cmd.cfgF (cmd s2))
      = configWriters (Cmd.cfgF (cmd s)) ++ [TmplWriter cfg] /\
      (result render s2 = Ret tt ->
       exists text : string,
         cfgTmpl_Execute (mkTmplData cfg (Cmd.cfgDir (cmd s2))) = Some text /\
         In (EvWrite (filepath_Join (Cmd.cfgDir (cmd s2)) cfgFileName) text)
            (trace (os (after render s2))))) /\
  (forall (cfg : Config.t) (s : St),
      runWriter (TmplWriter cfg) s
      = (match cfgTmpl_Execute (mkTmplData cfg (Cmd.cfgDir (cmd s))) with
         | Some text => Ret text
         | None => Err ErrTemplate
         end, s)).
Proof.
  assert (flagged : forall cfg s,
             hasConfigFlag (Cmd.Args (cmd (after (ConfigFile cfg) s))) = true).
  { intros cfg s. unfold after. rewrite ConfigFile_run. cbn.
    rewrite hasConfigFlag_app. cbn. apply orb_true_r. }
  split; [|split; [|split]].
  - intros s flag. apply defaultConfig_flag, hasConfigFlag_In, flag.
  - intros cfg s s1. subst s1. repeat split.
    + apply hasConfigFlag_In, flagged.
    + apply defaultConfig_flag, flagged.
  - intros cfg later s all s2.
    pose (P := fun t : St =>
                 hasConfigFlag (Cmd.Args (cmd t)) = true /\
                 configWriters (Cmd.cfgF (cmd t))
                 = configWriters (Cmd.cfgF (cmd s)) ++ [TmplWriter cfg]).
    assert (P s2) as [flag2 writers2].
    { apply (apply_invariant P structured); [| exact all |].
      - intros o t so [flag writers]. split.
        + apply run_keeps_flag, flag.
        + rewrite (run_keeps_configWriters o t so flag). exact writers.
      - split; [apply flagged|].
        unfold after. rewrite ConfigFile_run. cbn.
        unfold configWriters. rewrite filter_app, map_app. reflexivity. }
    split; [apply defaultConfig_flag, flag2|]. split; [exact writers2|].
    intros rendered.
    assert (queued : In (cfgFileName, TmplWriter cfg) (Cmd.cfgF (cmd s2))).
    { apply (apply_invariant
               (fun t => In (cfgFileName, TmplWriter cfg) (Cmd.cfgF (cmd t)))
               (fun _ => true)).
      - intros o t _. apply run_keeps_files.
      - apply forallb_forall. reflexivity.
      - unfold after. rewrite ConfigFile_run. cbn. apply in_or_app. right. left. reflexivity. }
    destruct (render_written _ _ _ queued rendered) as (text & same & written).
    exists text. split; [|exact written].
    rewrite runWriter_text in same.
    destruct (cfgTmpl_Execute _) as [t|]; congruence.
  - intros cfg s. unfold runWriter; simp_go.
    destruct (cfgTmpl_Execute _); reflexivity.
Qed.

(** C5: whatever the builder and whatever the outcome, [defaultConfig]
    leaves a vhost list that was not empty as it was, leaves an identity
    that was recorded (and its password) as it was, and never changes the
    two ports and the module list. *)
Theorem defaultConfig_keeps_supplied (s : St) :
  let s' := after defaultConfig s in
  (Config.VHosts (configOf (cmd s)) <> [] ->
   Config.VHosts (configOf (cmd s')) = Config.VHosts (configOf (cmd s))) /\
  (jid.Equal (Cmd.user (cmd s)) jid.zero = false ->
   Cmd.user (cmd s') = Cmd.user (cmd s) /\ Cmd.pass (cmd s') = Cmd.pass (cmd s)) /\
  Config.C2SPort (configOf (cmd s')) = Config.C2SPort (configOf (cmd s)) /\
  Config.S2SPort (configOf (cmd s')) = Config.S2SPort (configOf (cmd s)) /\
  Config.Modules (configOf (cmd s')) = Config.Modules (configOf (cmd s)).
Proof.
  open_all s; unfold_options; cases; unfold configOf; cbn;
    repeat split; intros; congruence.
Qed.

(** C10: [defaultConfig] never panics on the index [cfg.VHosts[0]]: the
    list it indexes is the one that the step before has made non-empty, so
    the index yields the first vhost the caller gave, or "localhost". *)
Theorem defaultConfig_index_in_bounds :
  (forall s : St, result defaultConfig s <> Panic PanicIndex) /\
  (forall (cfg : Config.t) (s : St),
      let cfg' := if Nat.eqb (List.length (Config.VHosts cfg)) 0
                  then Config.with_VHosts (Config.VHosts cfg ++ ["localhost"]) cfg
                  else cfg in
      Config.VHosts cfg' <> [] /\
      index (Config.VHosts cfg') 0 s = (Ret (hd "localhost" (Config.VHosts cfg)), s)).
Proof.
  split.
  - intros s. open_all s; unfold_options; cases; congruence.
  - intros [c2s s2s [|h vhosts] mods] s; cbn; split; (congruence || reflexivity).
Qed.

(** *** Type safety of the configuration slot *)

Lemma getConfig_foreign (ty : string) (s : St) :
  Cmd.Config (cmd s) = Some (Foreign ty) ->
  getConfig s = (Panic PanicTypeAssertion, s).
Proof. intros slot. unfold getConfig. rewrite slot. rewrite slot. reflexivity. Qed.

(** Every option leaves a well-typed slot well typed, whatever its outcome. *)
Lemma run_keeps_slotOK (o : Opt) (s : St) :
  slotOK (cmd s) = true -> slotOK (cmd (after (run o) s)) = true.
Proof.
  intros ok. destruct o; open_all s; try discriminate; unfold_options; cases; reflexivity.
Qed.

(** No option panics on a well-typed slot. *)
Lemma run_no_panic (o : Opt) (s : St) :
  slotOK (cmd s) = true -> panics (result (run o) s) = false.
Proof.
  intros ok. destruct o; open_all s; try discriminate; unfold_options; cases; reflexivity.
Qed.

Lemma apply_no_panic (opts : list Opt) : forall s : St,
  slotOK (cmd s) = true -> panics (result (integration.apply (map run opts)) s) = false.
Proof.
  induction opts as [|o opts IH]; intros s ok; [reflexivity|].
  pose proof (run_no_panic o s ok) as np.
  pose proof (run_keeps_slotOK o s ok) as ok1.
  unfold result, after in *. cbn [map integration.apply]. unfold bind.
  destruct (run o s) as [[[]| |] s1]; cbn [fst snd] in *; auto.
Qed.

(** C9: on a builder whose slot is nil or holds a [Config], [getConfig]
    returns the Configuration Value (the empty one for nil) and its type
    assertion does not fail; none of [VHost], [Modules], [ListenC2S],
    [ListenS2S], [TrustAll], [defaultConfig] panics; every option of the
    package leaves the slot nil-or-[Config], so that no sequence of them
    panics either. *)
Theorem getConfig_assertion_safe (s : St) :
  slotOK (cmd s) = true ->
  result getConfig s = Ret (configOf (cmd s)) /\
  (Cmd.Config (cmd s) = None -> result getConfig s = Ret Config.zero) /\
  (forall hosts, panics (result (VHost hosts) s) = false) /\
  (forall mods, panics (result (Modules mods) s) = false) /\
  panics (result ListenC2S s) = false /\
  panics (result ListenS2S s) = false /\
  panics (result TrustAll s) = false /\
  panics (result defaultConfig s) = false /\
  (forall o, slotOK (cmd (after (run o) s)) = true) /\
  (forall opts, panics (result (integration.apply (map run opts)) s) = false).
Proof.
  intros ok. split; [|split].
  - unfold result. rewrite (getConfig_run s ok). reflexivity.
  - intros none. unfold result. rewrite (getConfig_run s ok).
    unfold configOf. rewrite none. reflexivity.
  - repeat split.
    + intros hosts. exact (run_no_panic (OVHost hosts) s ok).
    + intros mods. exact (run_no_panic (OModules mods) s ok).
    + exact (run_no_panic OListenC2S s ok).
    + exact (run_no_panic OListenS2S s ok).
    + exact (run_no_panic OTrustAll s ok).
    + exact (run_no_panic ODefaultConfig s ok).
    + intros o. exact (run_keeps_slotOK o s ok).
    + intros opts. exact (apply_no_panic opts s ok).
Qed.

(** *** Creating a user *)

(** C4, as the code has it: [CreateUser] returns the error of the parser,
    and leaves the state as it is (no admin call queued, no identity
    recorded), whenever the address does not parse, which is the case of an
    address without '@'.  When the address parses, it queues the admin call
    "register" with the two parts of the address and the password and
    records the identity and the password at once: nothing has been run at
    that time.  For "me@localhost" and "password" the queued call, when the
    deferred calls are run, is the one synchronous run of prosodyctl
    --config <path of the config file> register me localhost password; that
    run comes after the identity was recorded and, failing or not, leaves
    the builder, and so the recorded identity, as it is. *)
Theorem CreateUser_parse_then_register :
  (forall (addr pass : string) (s : St),
      jid.Parse addr = None -> CreateUser addr pass s = (Err (ErrParse addr), s)) /\
  (forall (addr pass : string) (s : St),
      jid.hasAt addr = false -> CreateUser addr pass s = (Err (ErrParse addr), s)) /\
  (forall (addr pass : string) (j : jid.JID) (s : St),
      jid.Parse addr = Some j ->
      CreateUser addr pass s =
      (Ret tt,
       on_cmd (fun c =>
                 Cmd.with_User j pass
                   (Cmd.with_deferF
                      (Cmd.deferF c
                       ++ [CtlFunc ["register"; jid.Localpart j; jid.Domainpart j; pass]])
                      c)) s) /\
      os (after (CreateUser addr pass) s) = os s) /\
  (forall s : St,
      CreateUser "me@localhost" "password" s =
      (Ret tt,
       on_cmd (fun c =>
                 Cmd.with_User (jid.mkJID "me" "localhost") "password"
                   (Cmd.with_deferF
                      (Cmd.deferF c ++ [CtlFunc ["register"; "me"; "localhost"; "password"]])
                      c)) s) /\
      os (after (CreateUser "me@localhost" "password") s) = os s) /\
  (forall s : St,
      let argv := ["prosodyctl"; "--config"; filepath_Join (Cmd.cfgDir (cmd s)) cfgFileName;
                   "register"; "me"; "localhost"; "password"] in
      runDeferred (CtlFunc ["register"; "me"; "localhost"; "password"]) s =
      (if runFails (os s) argv then Err (ErrRun argv) else Ret tt,
       on_os (emit (EvRun argv)) s) /\
      cmd (after (runDeferred (CtlFunc ["register"; "me"; "localhost"; "password"])) s)
      = cmd s).
Proof.
  split; [|split; [|split; [|split]]].
  - intros addr pass s parse. unfold CreateUser. rewrite parse. reflexivity.
  - intros addr pass s noAt. apply Parse_hasAt in noAt.
    unfold CreateUser. rewrite noAt. reflexivity.
  - intros addr pass j s parse. unfold after, CreateUser. rewrite parse.
    split; reflexivity.
  - intros s. split; reflexivity.
  - intros s argv. subst argv. unfold after, runDeferred; simp_go.
    destruct (runFails (os s) _); split; reflexivity.
Qed.

(** C6, as the code has it: when [defaultConfig] runs without the config
    flag on a builder with no identity recorded (and, if it has to add the
    default vhost, the certificate is not refused), it succeeds, queues the
    registration of and records the identity "me" at the first vhost of the
    configuration, with password "password".  That first vhost is the
    first one the caller gave, and "localhost" only when the caller gave
    none. *)
Theorem defaultConfig_user_on_first_vhost (s : St) :
  slotOK (cmd s) = true ->
  ~ In configFlag (Cmd.Args (cmd s)) ->
  jid.Equal (Cmd.user (cmd s)) jid.zero = true ->
  (Config.VHosts (configOf (cmd s)) = [] -> certFails (os s) "localhost" = false) ->
  let h := hd "localhost" (Config.VHosts (configOf (cmd s))) in
  let s' := after defaultConfig s in
  result defaultConfig s = Ret tt /\
  Cmd.user (cmd s') = jid.mkJID "me" h /\
  Cmd.pass (cmd s') = "password" /\
  Cmd.deferF (cmd s') = Cmd.deferF (cmd s) ++ [CtlFunc ["register"; "me"; h; "password"]].
Proof.
  intros ok noFlag noUser certOK.
  destruct (hasConfigFlag (Cmd.Args (cmd s))) eqn:flag;
    [apply hasConfigFlag_In in flag; contradiction|].
  open_all s; try discriminate; unfold configOf in *; cbn in *;
    try specialize (certOK eq_refl); unfold_options; cases;
    repeat split; congruence.
Qed.

(** *** Reserving ports *)

(** X15: two calls of [ListenC2S] (of [ListenS2S]) that the system answers
    with listeners on [p1] and [p2], both closing without error, succeed;
    each stores in its field the port of the listener it opened and closed
    itself, the second store replacing the first, and the other port field is
    untouched.  A port is stored only once its listener is closed: when the
    close fails, the call returns that error and the builder is as before. *)
Theorem Listen_twice_last_port (s : St) (p1 p2 : Z) (rest : list ListenAnswer) :
  slotOK (cmd s) = true ->
  answers (os s) = Bound p1 true :: Bound p2 true :: rest ->
  (let s1 := after ListenC2S s in
   let s2 := after ListenC2S s1 in
   result ListenC2S s = Ret tt /\
   result ListenC2S s1 = Ret tt /\
   Config.C2SPort (configOf (cmd s1)) = p1 /\
   Config.C2SPort (configOf (cmd s2)) = p2 /\
   Config.S2SPort (configOf (cmd s2)) = Config.S2SPort (configOf (cmd s)) /\
   trace (os s1) = trace (os s) ++ [EvListen "tcp" "[::1]:0" p1; EvClose p1] /\
   trace (os s2) = trace (os s1) ++ [EvListen "tcp" "[::1]:0" p2; EvClose p2]) /\
  (let s1 := after ListenS2S s in
   let s2 := after ListenS2S s1 in
   result ListenS2S s = Ret tt /\
   result ListenS2S s1 = Ret tt /\
   Config.S2SPort (configOf (cmd s1)) = p1 /\
   Config.S2SPort (configOf (cmd s2)) = p2 /\
   Config.C2SPort (configOf (cmd s2)) = Config.C2SPort (configOf (cmd s)) /\
   trace (os s1) = trace (os s) ++ [EvListen "tcp" "[::1]:0" p1; EvClose p1] /\
   trace (os s2) = trace (os s1) ++ [EvListen "tcp" "[::1]:0" p2; EvClose p2]) /\
  (forall (t : St) (p : Z) (more : list ListenAnswer),
      answers (os t) = Bound p false :: more ->
      result ListenC2S t = Err ErrClose /\
      cmd (after ListenC2S t) = cmd t /\
      result ListenS2S t = Err ErrClose /\
      cmd (after ListenS2S t) = cmd t).
Proof.
  intros ok ans. split; [|split].
  - open_all s; try discriminate; cbn in ans; subst s_ans;
      unfold_options; simp_go; rewrite <- ?app_assoc; repeat split; reflexivity.
  - open_all s; try discriminate; cbn in ans; subst s_ans;
      unfold_options; simp_go; rewrite <- ?app_assoc; repeat split; reflexivity.
  - clear. intros t p more stuck.
    open_all t; cbn in stuck; subst s_ans; unfold_options; simp_go; auto.
Qed.

(** *** Trusting all certificates *)

Lemma enabled_configOf (m : string) (c : Cmd.t) :
  enabled m c -> In m (Config.Modules (configOf c)).
Proof.
  unfold enabled, configOf. destruct (Cmd.Config c) as [[cfg|ty]|]; tauto.
Qed.

Lemma TrustAll_run (s : St) :
  slotOK (cmd s) = true ->
  TrustAll s =
  (Ret tt,
   on_cmd (fun c =>
             Cmd.with_cfgF (Cmd.cfgF c ++ [("mod_trustall.lua", StringWriter trustScript)]) c)
     (put (Config.with_Modules (Config.Modules (configOf (cmd s)) ++ ["trustall"])
                               (configOf (cmd s))) s)).
Proof.
  intros ok. unfold TrustAll, bind. rewrite (Modules_run _ s ok). reflexivity.
Qed.

(** [TrustAll] can only succeed on a well-typed slot. *)
Lemma TrustAll_success (s : St) :
  result TrustAll s = Ret tt -> slotOK (cmd s) = true.
Proof. open_all s; unfold_options; cases; intros; congruence. Qed.

(** No structured option disables a module. *)
Lemma run_keeps_enabled (m : string) (o : Opt) (s : St) :
  structured o = true -> enabled m (cmd s) -> enabled m (cmd (after (run o) s)).
Proof.
  intros so on. destruct o; try discriminate;
    open_all s; unfold enabled in *; cbn in on; try contradiction;
    unfold_options; cases; rewrite ?append_each; cbn;
    rewrite ?in_app_iff; auto.
Qed.

(** A sequence that succeeds has run each of its two halves with success. *)
Lemma apply_app (l1 l2 : list Option) : forall s : St,
  result (integration.apply (l1 ++ l2)) s = Ret tt ->
  result (integration.apply l1) s = Ret tt /\
  result (integration.apply l2) (after (integration.apply l1) s) = Ret tt /\
  after (integration.apply (l1 ++ l2)) s
  = after (integration.apply l2) (after (integration.apply l1) s).
Proof.
  induction l1 as [|o l1 IH]; intros s; unfold result, after in *.
  - cbn. auto.
  - cbn [app integration.apply]. unfold bind.
    destruct (o s) as [[[]| |] s1]; cbn [fst snd]; try discriminate. apply IH.
Qed.

(** C8, as the code has it: the script that [TrustAll] writes is the literal
    of lines 189-198, ten lines of 272 bytes in all.  On any builder whose
    slot is well typed, whatever was applied before, [TrustAll] succeeds,
    appends the one module "trustall" to the module list and queues the one
    file "mod_trustall.lua" with that script, and changes nothing else.  In
    any sequence of options that runs to its end, whatever surrounds
    [TrustAll], the file stays queued and a successful render writes it with
    that content.  The module entry stays in the module list as long as only
    structured options follow: a later [ConfigFile] replaces the whole
    configuration. *)
Theorem TrustAll_effect :
  (trustScript =
   (let q := String "034"%char EmptyString in
    let t := String "009"%char EmptyString in
    String.concat (String "010"%char EmptyString)
      [EmptyString;
       "module:set_global();";
       EmptyString;
       "module:hook(" ++ q ++ "s2s-check-certificate" ++ q ++ ", function(event)";
       t ++ "local session = event.session;";
       t ++ "module:log(" ++ q ++ "info" ++ q ++ ", " ++ q
         ++ "implicitly trusting presented certificate" ++ q ++ ");";
       t ++ "session.cert_chain_status = " ++ q ++ "valid" ++ q ++ ";";
       t ++ "session.cert_identity_status = " ++ q ++ "valid" ++ q ++ ";";
       t ++ "return true;";
       "end);"])%string /\
   String.length trustScript = 272) /\
  (forall s : St,
      slotOK (cmd s) = true ->
      TrustAll s =
      (Ret tt,
       on_cmd (fun c =>
                 Cmd.with_cfgF
                   (Cmd.cfgF c ++ [("mod_trustall.lua", StringWriter trustScript)]) c)
         (put (Config.with_Modules (Config.Modules (configOf (cmd s)) ++ ["trustall"])
                                   (configOf (cmd s))) s))) /\
  (forall (before later : list Opt) (s : St),
      let opts := map run (before ++ OTrustAll :: later) in
      let s' := after (integration.apply opts) s in
      result (integration.apply opts) s = Ret tt ->
      In ("mod_trustall.lua", StringWriter trustScript) (Cmd.cfgF (cmd s')) /\
      (result render s' = Ret tt ->
       In (EvWrite (filepath_Join (Cmd.cfgDir (cmd s')) "mod_trustall.lua") trustScript)
          (trace (os (after render s')))) /\
      (forallb structured later = true ->
       In "trustall" (Config.Modules (configOf (cmd s'))))).
Proof.
  split; [split; reflexivity|].
  split; [exact TrustAll_run|].
  intros before later s opts s' done. subst opts s'.
  rewrite map_app in *. cbn [map] in *.
  destruct (apply_app _ _ s done) as (_ & done2 & ->).
  set (sa := after (integration.apply (map run before)) s) in *.
  change (integration.apply (run OTrustAll :: map run later))
    with (bind TrustAll (fun _ => integration.apply (map run later))) in *.
  assert (ok : slotOK (cmd sa) = true).
  { apply TrustAll_success. unfold result, bind in *.
    destruct (TrustAll sa) as [[[]| |] sb]; cbn [fst] in *; congruence. }
  unfold after, result, bind in *. rewrite (TrustAll_run sa ok) in *.
  match goal with
  | |- context [integration.apply _ ?t] => set (sb := t) in *
  end.
  fold (after (integration.apply (map run later)) sb).
  assert (queued : In ("mod_trustall.lua", StringWriter trustScript)
                      (Cmd.cfgF (cmd (after (integration.apply (map run later)) sb)))).
  { apply (apply_invariant
             (fun t => In ("mod_trustall.lua", StringWriter trustScript) (Cmd.cfgF (cmd t)))
             (fun _ => true)).
    - intros o t _. apply run_keeps_files.
    - apply forallb_forall. reflexivity.
    - subst sb. cbn. apply in_or_app. right. left. reflexivity. }
  split; [exact queued|split].
  - intros rendered.
    destruct (render_written _ _ _ queued rendered) as (text & same & written).
    rewrite runWriter_text in same. injection same as <-. exact written.
  - intros all.
    assert (on : enabled "trustall" (cmd (after (integration.apply (map run later)) sb))).
    { apply (apply_invariant (fun t => enabled "trustall" (cmd t)) structured).
      - intros o t so. apply run_keeps_enabled, so.
      - exact all.
      - subst sb. unfold enabled. cbn. apply in_or_app. right. left. reflexivity. }
    apply enabled_configOf, on.
Qed.

(** * Further properties of the options *)

(** *** Listeners that cannot be opened or closed *)

(** X1: when [ListenC2S] or [ListenS2S] returns an error, it is the bind
    error or the close error, and the builder is as it was: no port is stored
    and a nil slot is still nil. *)
Theorem Listen_error_keeps_builder (s : St) :
  (forall e : error,
      result ListenC2S s = Err e ->
      (e = ErrBind \/ e = ErrClose) /\ cmd (after ListenC2S s) = cmd s) /\
  (forall e : error,
      result ListenS2S s = Err e ->
      (e = ErrBind \/ e = ErrClose) /\ cmd (after ListenS2S s) = cmd s).
Proof.
  split.
  - intros e. open_all s; unfold_options; cases; intros failed;
      try discriminate; inversion failed; auto.
  - intros e. open_all s; unfold_options; cases; intros failed;
      try discriminate; inversion failed; auto.
Qed.

(** X2: [ListenC2S] and [ListenS2S] write different fields: after one call of
    each, in either order, both ports are stored, each the port of its own
    listener, and the vhosts, the modules and the rest of the builder are as
    before. *)
Theorem Listen_both_ports (s : St) (p q : Z) (rest : list ListenAnswer) :
  slotOK (cmd s) = true ->
  answers (os s) = Bound p true :: Bound q true :: rest ->
  let cfg := configOf (cmd s) in
  (ListenC2S ;; ListenS2S) s
  = (Ret tt,
     put (Config.mk p q (Config.VHosts cfg) (Config.Modules cfg))
       (on_os (fun w =>
                 mkWorld rest (certFails w) (runFails w)
                   (trace w ++ [EvListen "tcp" "[::1]:0" p; EvClose p;
                                EvListen "tcp" "[::1]:0" q; EvClose q])) s)) /\
  (ListenS2S ;; ListenC2S) s
  = (Ret tt,
     put (Config.mk q p (Config.VHosts cfg) (Config.Modules cfg))
       (on_os (fun w =>
                 mkWorld rest (certFails w) (runFails w)
                   (trace w ++ [EvListen "tcp" "[::1]:0" p; EvClose p;
                                EvListen "tcp" "[::1]:0" q; EvClose q])) s)).
Proof.
  intros ok ans cfg. subst cfg.
  open_all s; try discriminate; cbn in ans; subst s_ans;
    unfold_options; simp_go; cbv -[app]; rewrite <- ?app_assoc; split; reflexivity.
Qed.

(** *** A slot that holds another type *)

(** X3: On a builder whose slot holds a value of another type, [VHost],
    [Modules] and [TrustAll] panic on the type assertion and leave the state
    as it is; [ListenC2S] and [ListenS2S] panic too, but only after the
    listener has been opened and closed; [defaultConfig] panics unless the
    config flag makes it return first.  [ConfigFile] does not read the slot:
    it succeeds and leaves a [Config] in it. *)
Theorem foreign_slot_panics (ty : string) (s : St) :
  Cmd.Config (cmd s) = Some (Foreign ty) ->
  (forall hosts, VHost hosts s = (Panic PanicTypeAssertion, s)) /\
  (forall mods, Modules mods s = (Panic PanicTypeAssertion, s)) /\
  TrustAll s = (Panic PanicTypeAssertion, s) /\
  (forall (p : Z) (rest : list ListenAnswer),
      answers (os s) = Bound p true :: rest ->
      result ListenC2S s = Panic PanicTypeAssertion /\
      result ListenS2S s = Panic PanicTypeAssertion /\
      trace (os (after ListenC2S s))
      = trace (os s) ++ [EvListen "tcp" "[::1]:0" p; EvClose p] /\
      Cmd.Config (cmd (after ListenC2S s)) = Some (Foreign ty)) /\
  (~ In configFlag (Cmd.Args (cmd s)) -> defaultConfig s = (Panic PanicTypeAssertion, s)) /\
  (In configFlag (Cmd.Args (cmd s)) -> defaultConfig s = (Ret tt, s)) /\
  (forall cfg,
      result (ConfigFile cfg) s = Ret tt /\
      Cmd.Config (cmd (after (ConfigFile cfg) s)) = Some (ProsodyConfig cfg)).
Proof.
  intros foreign.
  destruct s as [[a d slot fs ds u pw] [ans cf rf tr]]. cbn in foreign. subst slot.
  split; [reflexivity|]. split; [reflexivity|]. split; [reflexivity|].
  split; [|split; [|split]].
  - intros p rest e. cbn in e. subst ans.
    unfold_options; simp_go; cbv -[app]; rewrite <- ?app_assoc. auto.
  - intros noFlag. unfold defaultConfig; simp_go.
    destruct (hasConfigFlag a) eqn:flag; [|reflexivity].
    apply hasConfigFlag_In in flag. contradiction.
  - intros flag. apply defaultConfig_flag, hasConfigFlag_In, flag.
  - intros cfg. split; reflexivity.
Qed.

(** *** More on the default assembly *)

(** A successful [defaultConfig] leaves the config flag among the arguments. *)
Lemma defaultConfig_sets_flag (s : St) :
  result defaultConfig s = Ret tt ->
  hasConfigFlag (Cmd.Args (cmd (after defaultConfig s))) = true.
Proof.
  open_all s; unfold_options; cases; intros done; try discriminate;
    rewrite ?hasConfigFlag_app; cbn; auto using orb_true_r.
Qed.

(** What a successful [defaultConfig] that did not find the flag has done. *)
Lemma defaultConfig_assembled (s : St) :
  hasConfigFlag (Cmd.Args (cmd s)) = false ->
  result defaultConfig s = Ret tt ->
  let s' := after defaultConfig s in
  Cmd.Args (cmd s')
  = Cmd.Args (cmd s) ++ [configFlag; filepath_Join (Cmd.cfgDir (cmd s)) cfgFileName] /\
  Cmd.cfgDir (cmd s') = Cmd.cfgDir (cmd s) /\
  Cmd.Config (cmd s') = Some (ProsodyConfig (configOf (cmd s'))) /\
  Cmd.cfgF (cmd s') = Cmd.cfgF (cmd s) ++ [(cfgFileName, TmplWriter (configOf (cmd s')))] /\
  Config.VHosts (configOf (cmd s')) <> [] /\
  jid.Equal (Cmd.user (cmd s')) jid.zero = false.
Proof.
  intros noFlag.
  open_all s; unfold_options; unfold configOf; cases; intros done; try discriminate;
    repeat split; try reflexivity; try discriminate; congruence.
Qed.

(** X4: Running [defaultConfig] a second time changes nothing: the first run, if
    it succeeds, leaves the flag that makes the second one return at once. *)
Theorem defaultConfig_idempotent (s : St) :
  result defaultConfig s = Ret tt ->
  (defaultConfig ;; defaultConfig) s = defaultConfig s.
Proof.
  intros done. pose proof (defaultConfig_sets_flag s done) as flag.
  unfold bind, result, after in *.
  destruct (defaultConfig s) as [[[]| |] s1]; cbn [fst snd] in *; try discriminate.
  apply defaultConfig_flag, flag.
Qed.

(** X5: whenever [defaultConfig] has to assemble the configuration and can
    do so (well-typed slot, no config flag, the certificate for the default
    vhost not refused, and, when no identity is recorded, the address "me"
    at the first vhost accepted by the parser as [j]), it succeeds and leaves
    a builder that is ready to launch: the flag and the path of the config
    file are the last two arguments, the vhost list is not empty, the
    identity is the one that was recorded or else [j], and the one config
    file it queues is rendered from the very configuration it leaves in the
    slot. *)
Theorem defaultConfig_ready (s : St) (j : jid.JID) :
  slotOK (cmd s) = true ->
  ~ In configFlag (Cmd.Args (cmd s)) ->
  (Config.VHosts (configOf (cmd s)) = [] -> certFails (os s) "localhost" = false) ->
  (jid.Equal (Cmd.user (cmd s)) jid.zero = true ->
   jid.Parse ("me@" ++ hd "localhost" (Config.VHosts (configOf (cmd s))))%string = Some j) ->
  let s' := after defaultConfig s in
  result defaultConfig s = Ret tt /\
  Cmd.Args (cmd s')
  = Cmd.Args (cmd s) ++ [configFlag; filepath_Join (Cmd.cfgDir (cmd s)) cfgFileName] /\
  Cmd.cfgF (cmd s') = Cmd.cfgF (cmd s) ++ [(cfgFileName, TmplWriter (configOf (cmd s')))] /\
  Config.VHosts (configOf (cmd s')) <> [] /\
  Cmd.user (cmd s')
  = (if jid.Equal (Cmd.user (cmd s)) jid.zero then j else Cmd.user (cmd s)).
Proof.
  intros ok noFlag certOK parsed s'. subst s'.
  assert (flag : hasConfigFlag (Cmd.Args (cmd s)) = false).
  { destruct (hasConfigFlag (Cmd.Args (cmd s))) eqn:flag; [|reflexivity].
    apply hasConfigFlag_In in flag. contradiction. }
  assert (done : result defaultConfig s = Ret tt).
  { clear noFlag parsed. open_all s; try discriminate; unfold configOf in *; cbn in *;
      try specialize (certOK eq_refl); unfold_options; cases; congruence. }
  destruct (defaultConfig_assembled s flag done) as (a & _ & _ & f & v & _).
  split; [exact done|]. split; [exact a|]. split; [exact f|]. split; [exact v|].
  clear a f v done noFlag.
  open_all s; try discriminate; unfold configOf in *; cbn in *;
    try specialize (certOK eq_refl);
    destruct (jid.Equal s_u jid.zero) eqn:noUser;
    try (specialize (parsed eq_refl); inversion parsed; subst j);
    unfold_options; simp_go; rewrite flag; simp_go; rewrite ?certOK, ?noUser; simp_go;
    rewrite ?noUser; reflexivity.
Qed.

(** X6: When the certificate for the default vhost is refused, [defaultConfig]
    returns that error at once: the vhost is not stored, no identity is
    created, no file is queued, no flag is added.  All it has done is turn a
    nil slot into the empty configuration. *)
Theorem defaultConfig_cert_refused (s : St) :
  slotOK (cmd s) = true ->
  ~ In configFlag (Cmd.Args (cmd s)) ->
  Config.VHosts (configOf (cmd s)) = [] ->
  certFails (os s) "localhost" = true ->
  defaultConfig s = (Err (ErrCert "localhost"), put (configOf (cmd s)) s).
Proof.
  intros ok noFlag noVHost refused.
  assert (flag : hasConfigFlag (Cmd.Args (cmd s)) = false).
  { destruct (hasConfigFlag (Cmd.Args (cmd s))) eqn:flag; [|reflexivity].
    apply hasConfigFlag_In in flag. contradiction. }
  clear noFlag.
  open_all s; try discriminate; unfold configOf in *; cbn in *; try discriminate;
    unfold defaultConfig, getConfig; simp_go; rewrite flag; simp_go; rewrite refused;
    reflexivity.
Qed.

(** X7: [defaultConfig] asks for no certificate when the caller has configured a
    vhost (it has no effect outside the builder then, whatever its outcome),
    and queues no registration when an identity is already recorded. *)
Theorem defaultConfig_restraint (s : St) :
  (Config.VHosts (configOf (cmd s)) <> [] -> os (after defaultConfig s) = os s) /\
  (jid.Equal (Cmd.user (cmd s)) jid.zero = false ->
   Cmd.deferF (cmd (after defaultConfig s)) = Cmd.deferF (cmd s)).
Proof.
  open_all s; unfold_options; unfold configOf; cases;
    split; intros; try reflexivity; congruence.
Qed.

(** *** Test and New *)

(** No option moves the config directory. *)
Lemma run_keeps_cfgDir (o : Opt) (s : St) :
  Cmd.cfgDir (cmd (after (run o) s)) = Cmd.cfgDir (cmd s).
Proof. destruct o; open_all s; unfold_options; cases; reflexivity. Qed.

(** A plain option leaves the arguments alone and queues no config file. *)
Lemma plain_keeps_launch (o : Opt) (s : St) :
  plain o = true ->
  Cmd.Args (cmd (after (run o) s)) = Cmd.Args (cmd s) /\
  configWriters (Cmd.cfgF (cmd (after (run o) s))) = configWriters (Cmd.cfgF (cmd s)).
Proof.
  intros po. destruct o; try discriminate;
    open_all s; unfold_options; cases;
    unfold configWriters; rewrite ?filter_app, ?map_app; cbn; rewrite ?app_nil_r;
    split; reflexivity.
Qed.

Lemma plain_sequence_keeps_launch (opts : list Opt) (s : St) :
  forallb plain opts = true ->
  let s' := after (integration.apply (map run opts)) s in
  Cmd.Args (cmd s') = Cmd.Args (cmd s) /\
  configWriters (Cmd.cfgF (cmd s')) = configWriters (Cmd.cfgF (cmd s)) /\
  Cmd.cfgDir (cmd s') = Cmd.cfgDir (cmd s).
Proof.
  intros all.
  apply (apply_invariant
           (fun t => Cmd.Args (cmd t) = Cmd.Args (cmd s) /\
                     configWriters (Cmd.cfgF (cmd t)) = configWriters (Cmd.cfgF (cmd s)) /\
                     Cmd.cfgDir (cmd t) = Cmd.cfgDir (cmd s))
           plain); [| exact all | auto].
  intros o t po (a & f & d). destruct (plain_keeps_launch o t po) as [a' f'].
  rewrite a', f', run_keeps_cfgDir. auto.
Qed.

(** A sequence of one. *)
Lemma apply_single (o : Option) (s : St) :
  result (integration.apply [o]) s = Ret tt ->
  result o s = Ret tt /\ after (integration.apply [o]) s = after o s.
Proof.
  unfold result, after. cbn [integration.apply]. unfold bind.
  destruct (o s) as [[[]| |] s1]; cbn; intros done; try discriminate. auto.
Qed.

(** X8: Whatever options the caller gives to [Test], if the sequence succeeds the
    daemon is pointed at a config file: "--config" is among the arguments at
    the end, and the assembly is complete, in that running [defaultConfig]
    again would change nothing. *)
Theorem Test_sets_config_flag (opts : list Option) (s : St) :
  result (Test opts) s = Ret tt ->
  let s' := after (Test opts) s in
  In configFlag (Cmd.Args (cmd s')) /\ defaultConfig s' = (Ret tt, s').
Proof.
  intros done s'. subst s'. unfold Test in *.
  destruct (apply_app _ _ s done) as (_ & last & ->).
  destruct (apply_single _ _ last) as (assembled & ->).
  pose proof (defaultConfig_sets_flag _ assembled) as flag.
  split; [apply hasConfigFlag_In, flag | apply defaultConfig_flag, flag].
Qed.

(** X9: [Test] with plain options (no [ConfigFile]) on a builder without the
    flag: when the sequence succeeds, the arguments are those of the start
    followed by "--config" and the path of the config file in the config
    directory; the one config file queued on top of the earlier ones is
    rendered from the configuration that the options and the assembly have
    left in the slot; a successful render writes it at that very path; and
    every deferred call, when it runs, runs prosodyctl with "--config" and
    that same path before its own arguments. *)
Theorem Test_plain_options (opts : list Opt) (s : St) :
  forallb plain opts = true ->
  ~ In configFlag (Cmd.Args (cmd s)) ->
  result (Test (map run opts)) s = Ret tt ->
  let s' := after (Test (map run opts)) s in
  let path := filepath_Join (Cmd.cfgDir (cmd s)) cfgFileName in
  Cmd.Args (cmd s') = Cmd.Args (cmd s) ++ [configFlag; path] /\
  configWriters (Cmd.cfgF (cmd s'))
  = configWriters (Cmd.cfgF (cmd s)) ++ [TmplWriter (configOf (cmd s'))] /\
  Config.VHosts (configOf (cmd s')) <> [] /\
  (result render s' = Ret tt ->
   exists text : string,
     cfgTmpl_Execute (mkTmplData (configOf (cmd s')) (Cmd.cfgDir (cmd s))) = Some text /\
     In (EvWrite path text) (trace (os (after render s')))) /\
  (forall d : Deferred,
      In d (Cmd.deferF (cmd s')) ->
      exists args : list string,
        d = CtlFunc args /\
        trace (os (after (runDeferred d) s'))
        = trace (os s') ++ [EvRun ("prosodyctl" :: configFlag :: path :: args)]).
Proof.
  intros all noFlag done s' path. subst s' path. unfold Test in *.
  destruct (apply_app _ _ s done) as (_ & last & ->).
  destruct (apply_single _ _ last) as (assembled & ->).
  destruct (plain_sequence_keeps_launch opts s all) as (a & f & d).
  set (sm := after (integration.apply (map run opts)) s) in *.
  assert (flag : hasConfigFlag (Cmd.Args (cmd sm)) = false).
  { rewrite a. destruct (hasConfigFlag (Cmd.Args (cmd s))) eqn:flag; [|reflexivity].
    apply hasConfigFlag_In in flag. contradiction. }
  destruct (defaultConfig_assembled sm flag assembled) as (a' & d' & _ & f' & v' & _).
  set (s' := after defaultConfig sm) in *.
  rewrite d in *. rewrite a in a'.
  split; [exact a'|]. split; [|split; [exact v'|split]].
  - rewrite f'. unfold configWriters in *. rewrite filter_app, map_app, f. reflexivity.
  - intros rendered.
    assert (queued : In (cfgFileName, TmplWriter (configOf (cmd s'))) (Cmd.cfgF (cmd s'))).
    { rewrite f'. apply in_or_app. right. left. reflexivity. }
    destruct (render_written _ _ _ queued rendered) as (text & same & written).
    rewrite runWriter_text, d' in same. rewrite d' in written.
    exists text. split; [|exact written].
    destruct (cfgTmpl_Execute _) as [t|]; congruence.
  - intros [args] _. exists args. split; [reflexivity|].
    unfold after, runDeferred; simp_go. rewrite d'.
    destruct (runFails (os s') _); reflexivity.
Qed.

(** X10: [New] does not assemble anything: with plain options (no [ConfigFile])
    the arguments are left as they were, so the daemon is not pointed at any
    config file, and no config file is queued, whether the sequence succeeds
    or not.  The configuration that the options have built is rendered only
    under [Test]. *)
Theorem New_plain_options_no_config (opts : list Opt) (s : St) :
  forallb plain opts = true ->
  let s' := after (New (map run opts)) s in
  Cmd.Args (cmd s') = Cmd.Args (cmd s) /\
  configWriters (Cmd.cfgF (cmd s')) = configWriters (Cmd.cfgF (cmd s)) /\
  (~ In configFlag (Cmd.Args (cmd s)) -> ~ In configFlag (Cmd.Args (cmd s'))).
Proof.
  intros all s'. subst s'. unfold New.
  destruct (plain_sequence_keeps_launch opts s all) as (a & f & _).
  split; [exact a|]. split; [exact f|]. rewrite a. auto.
Qed.

(** *** Composing the structured options *)

(** X11: [TrustAll] is not idempotent: [n] applications append [n] entries
    "trustall" to the module list and queue the script file [n] times. *)
Theorem TrustAll_repeated (n : nat) : forall s : St,
  slotOK (cmd s) = true ->
  let s' := after (integration.apply (repeat TrustAll n)) s in
  result (integration.apply (repeat TrustAll n)) s = Ret tt /\
  Config.Modules (configOf (cmd s'))
  = Config.Modules (configOf (cmd s)) ++ repeat "trustall" n /\
  Cmd.cfgF (cmd s')
  = Cmd.cfgF (cmd s) ++ repeat ("mod_trustall.lua", StringWriter trustScript) n.
Proof.
  induction n as [|n IH]; intros s ok; cbn [repeat integration.apply].
  - unfold result, after. cbn. rewrite !app_nil_r. auto.
  - unfold result, after, bind in *. rewrite (TrustAll_run s ok).
    match goal with
    | |- context [integration.apply _ ?t] => set (s1 := t) in *
    end.
    destruct (IH s1 eq_refl) as (done & mods & files).
    split; [exact done|]. rewrite mods, files. subst s1. cbn.
    rewrite <- !app_assoc. auto.
Qed.

(** X12: Two calls of [VHost] are one call with the two argument lists joined,
    and likewise for [Modules]; a call of [VHost] and a call of [Modules]
    can be swapped.  The equations are between whole states, not only
    between the lists. *)
Theorem VHost_Modules_compose (a b : list string) (s : St) :
  slotOK (cmd s) = true ->
  (VHost a ;; VHost b) s = VHost (a ++ b) s /\
  (Modules a ;; Modules b) s = Modules (a ++ b) s /\
  (VHost a ;; Modules b) s = (Modules b ;; VHost a) s.
Proof.
  intros ok. unfold bind.
  rewrite !(VHost_run _ s ok), !(Modules_run _ s ok).
  rewrite !(VHost_run _ _ (put_slotOK _ _)), !(Modules_run _ _ (put_slotOK _ _)).
  rewrite !put_configOf. cbn. rewrite <- !app_assoc. auto.
Qed.

(** X13: Each call of [CreateUser] whose address parses queues its registration
    behind the earlier ones and replaces the recorded identity; the
    configuration, the arguments and the queued files are not touched, and
    no process is run at that time. *)
Theorem CreateUser_twice (a1 p1 a2 p2 : string) (j1 j2 : jid.JID) (s : St) :
  jid.Parse a1 = Some j1 ->
  jid.Parse a2 = Some j2 ->
  (CreateUser a1 p1 ;; CreateUser a2 p2) s
  = (Ret tt,
     on_cmd (fun c =>
               Cmd.with_User j2 p2
                 (Cmd.with_deferF
                    (Cmd.deferF c
                     ++ [CtlFunc ["register"; jid.Localpart j1; jid.Domainpart j1; p1];
                         CtlFunc ["register"; jid.Localpart j2; jid.Domainpart j2; p2]])
                    c)) s).
Proof.
  intros parse1 parse2. unfold CreateUser, bind. rewrite parse1. simp_go. rewrite parse2.
  cbv -[app]. rewrite <- app_assoc. reflexivity.
Qed.

(** X14: [ConfigFile] applied twice: the second configuration replaces the first
    in the slot, but the flag and the path are appended a second time and a
    second writer is queued under the same name.  On a builder with no other
    file queued, the render writes the file twice at that path, first from
    the first configuration and last from the second. *)
Theorem ConfigFile_twice (c1 c2 : Config.t) (s : St) :
  let path := filepath_Join (Cmd.cfgDir (cmd s)) cfgFileName in
  let s' := after (ConfigFile c1 ;; ConfigFile c2) s in
  result (ConfigFile c1 ;; ConfigFile c2) s = Ret tt /\
  Cmd.Config (cmd s') = Some (ProsodyConfig c2) /\
  Cmd.Args (cmd s') = Cmd.Args (cmd s) ++ [configFlag; path; configFlag; path] /\
  Cmd.cfgF (cmd s')
  = Cmd.cfgF (cmd s) ++ [(cfgFileName, TmplWriter c1); (cfgFileName, TmplWriter c2)] /\
  (forall t1 t2 : string,
      Cmd.cfgF (cmd s) = [] ->
      cfgTmpl_Execute (mkTmplData c1 (Cmd.cfgDir (cmd s))) = Some t1 ->
      cfgTmpl_Execute (mkTmplData c2 (Cmd.cfgDir (cmd s))) = Some t2 ->
      result render s' = Ret tt /\
      trace (os (after render s')) = trace (os s) ++ [EvWrite path t1; EvWrite path t2]).
Proof.
  intros path s'. subst path s'.
  destruct s as [[a d slot fs ds u pw] [ans cf rf tr]].
  unfold result, after, ConfigFile; simp_go. rewrite <- !app_assoc. cbn.
  split; [reflexivity|]. split; [reflexivity|]. split; [reflexivity|].
  split; [reflexivity|].
  intros t1 t2 none exec1 exec2. subst fs.
  unfold render; simp_go. rewrite exec1. simp_go. rewrite exec2. simp_go.
  rewrite <- !app_assoc. split; reflexivity.
Qed.

End Prosody.

(** * Examples: the theorems at concrete builders *)

(** [VHost_Modules_concatenate] on a fresh builder: interleaved calls, with a
    repeated host and a repeated module. *)
Lemma VHost_Modules_concatenate_witness :
  let calls := [CallVHost ["a.example"; "b.example"]; CallModules ["mam"];
                CallVHost ["a.example"]; CallModules ["mam"; "carbons"]] in
  let s' := after (integration.apply (map optionOf calls)) freshState in
  slotOK (cmd freshState) = true /\
  Cmd.Config (cmd freshState) = None /\
  result (integration.apply (map optionOf calls)) freshState = Ret tt /\
  Config.VHosts (configOf (cmd s')) = ["a.example"; "b.example"; "a.example"] /\
  Config.Modules (configOf (cmd s')) = ["mam"; "mam"; "carbons"].
Proof.
  intros calls s'.
  destruct (VHost_Modules_concatenate calls freshState eq_refl) as (done & _ & _ & fromNil).
  destruct (fromNil eq_refl) as [vhosts modules].
  exact (conj eq_refl (conj eq_refl (conj done (conj vhosts modules)))).
Defined.

(** [defaultConfig_fresh] in the sample environment. *)
Lemma defaultConfig_fresh_witness :
  let cfg := Config.mk 0 0 ["localhost"] [] in
  let path := "/tmp/prosody/prosody.cfg.lua" in
  let s1 :=
    mkSt (Cmd.mk ["prosody"; "--config"; path] sampleDir (Some (ProsodyConfig cfg))
            [("prosody.cfg.lua", TmplWriter cfg)]
            [CtlFunc ["register"; "me"; "localhost"; "password"]]
            (jid.mkJID "me" "localhost") "password")
         (emit (EvCert "localhost") quiet) in
  certFails quiet "localhost" = false /\
  vhostLines (mkTmplData cfg sampleDir) = Some "VirtualHost localhost" /\
  defaultConfig slashJoin freshState = (Ret tt, s1) /\
  render slashJoin vhostLines s1
  = (Ret tt, on_os (emit (EvWrite path "VirtualHost localhost")) s1).
Proof.
  intros cfg path s1.
  destruct (defaultConfig_fresh slashJoin vhostLines sampleDir quiet eq_refl)
    as (assembled & _ & rendered & _).
  exact (conj eq_refl (conj eq_refl (conj assembled (rendered _ eq_refl)))).
Defined.

(** [defaultConfig_explicit_config]: a builder that already has the flag, and
    [ConfigFile] followed by structured options. *)
Lemma defaultConfig_explicit_config_witness :
  let cfg := Config.mk 0 0 ["example.org"] [] in
  let later := [OVHost ["other.example"]; OTrustAll; OCreateUser "me@example.org" "pw"] in
  let s2 := after (integration.apply (map (run slashJoin) later))
                  (after (ConfigFile slashJoin cfg) freshState) in
  In configFlag (Cmd.Args (cmd explicitState)) /\
  defaultConfig slashJoin explicitState = (Ret tt, explicitState) /\
  forallb structured later = true /\
  result (render slashJoin vhostLines) s2 = Ret tt /\
  defaultConfig slashJoin s2 = (Ret tt, s2) /\
  configWriters (Cmd.cfgF (cmd s2)) = [TmplWriter cfg] /\
  (exists text : string,
      vhostLines (mkTmplData cfg (Cmd.cfgDir (cmd s2))) = Some text /\
      In (EvWrite (slashJoin (Cmd.cfgDir (cmd s2)) cfgFileName) text)
         (trace (os (after (render slashJoin vhostLines) s2)))).
Proof.
  intros cfg later s2.
  destruct (defaultConfig_explicit_config slashJoin vhostLines) as (flagged & _ & sealed & _).
  assert (flag : In configFlag (Cmd.Args (cmd explicitState))) by (right; left; reflexivity).
  destruct (sealed cfg later freshState eq_refl) as (noop & writers & rendered).
  exact (conj flag
           (conj (flagged explicitState flag)
              (conj eq_refl
                 (conj eq_refl (conj noop (conj writers (rendered eq_refl))))))).
Defined.

(** [CreateUser_parse_then_register]: an address without '@' and one with. *)
Lemma CreateUser_parse_then_register_witness :
  jid.Parse "localhost" = None /\
  jid.hasAt "localhost" = false /\
  CreateUser "localhost" "password" freshState = (Err (ErrParse "localhost"), freshState) /\
  jid.Parse "me@localhost" = Some (jid.mkJID "me" "localhost") /\
  Cmd.deferF (cmd (after (CreateUser "me@localhost" "password") freshState))
  = [CtlFunc ["register"; "me"; "localhost"; "password"]] /\
  Cmd.user (cmd (after (CreateUser "me@localhost" "password") freshState))
  = jid.mkJID "me" "localhost" /\
  os (after (CreateUser "me@localhost" "password") freshState) = os freshState.
Proof.
  destruct (CreateUser_parse_then_register slashJoin) as (noParse & noAt & parsed & _).
  destruct (parsed "me@localhost" "password" _ freshState eq_refl) as [queued nothingRun].
  pose proof (noParse "localhost" "password" freshState eq_refl) as failed.
  pose proof (noAt "localhost" "password" freshState eq_refl) as failed'.
  exact (conj eq_refl
           (conj eq_refl
              (conj failed'
                 (conj eq_refl
                    (conj (f_equal (fun r => Cmd.deferF (cmd (snd r))) queued)
                       (conj (f_equal (fun r => Cmd.user (cmd (snd r))) queued)
                          nothingRun)))))).
Defined.

(** C4 as stated fails: after [CreateUser] has returned, the identity and the
    password are recorded although no admin call has been run yet (the trace
    is empty); when the deferred calls are run later and prosodyctl fails,
    the identity is still the recorded one. *)
Lemma CreateUser_records_before_invocation :
  let s1 := after (CreateUser "me@localhost" "password") failingCtlState in
  let argv := ["prosodyctl"; "--config"; "/tmp/prosody/prosody.cfg.lua";
               "register"; "me"; "localhost"; "password"] in
  result (CreateUser "me@localhost" "password") failingCtlState = Ret tt /\
  Cmd.user (cmd s1) = jid.mkJID "me" "localhost" /\
  Cmd.pass (cmd s1) = "password" /\
  trace (os s1) = [] /\
  result (runDeferreds slashJoin) s1 = Err (ErrRun argv) /\
  trace (os (after (runDeferreds slashJoin) s1)) = [EvRun argv] /\
  Cmd.user (cmd (after (runDeferreds slashJoin) s1)) = jid.mkJID "me" "localhost".
Proof.
  cbv zeta. repeat split.
Qed.

(** [defaultConfig_keeps_supplied] on a builder the caller has filled in. *)
Lemma defaultConfig_keeps_supplied_witness :
  let s' := after (defaultConfig slashJoin) ownUserState in
  Config.VHosts (configOf (cmd ownUserState)) <> [] /\
  jid.Equal (Cmd.user (cmd ownUserState)) jid.zero = false /\
  Config.VHosts (configOf (cmd s')) = ["example.org"] /\
  Cmd.user (cmd s') = jid.mkJID "admin" "example.org" /\
  Cmd.pass (cmd s') = "secret".
Proof.
  intros s'.
  destruct (defaultConfig_keeps_supplied slashJoin ownUserState) as (vhosts & user & _).
  assert (given : Config.VHosts (configOf (cmd ownUserState)) <> []) by discriminate.
  pose proof (vhosts given) as kept. destruct (user eq_refl) as [sameUser samePass].
  exact (conj given (conj eq_refl (conj kept (conj sameUser samePass)))).
Defined.

(** [getConfig_assertion_safe] on a fresh builder, whose slot is nil. *)
Lemma getConfig_assertion_safe_witness :
  slotOK (cmd freshState) = true /\
  Cmd.Config (cmd freshState) = None /\
  result getConfig freshState = Ret Config.zero /\
  panics (result (defaultConfig slashJoin) freshState) = false /\
  panics (result (integration.apply
                    (map (run slashJoin) [OListenC2S; OTrustAll; ODefaultConfig]))
                 freshState) = false.
Proof.
  destruct (getConfig_assertion_safe slashJoin freshState eq_refl)
    as (_ & nil & _ & _ & _ & _ & _ & assembly & _ & sequences).
  exact (conj eq_refl (conj eq_refl (conj (nil eq_refl) (conj assembly (sequences _))))).
Defined.

(** [defaultConfig_user_on_first_vhost] on a builder with the caller's own
    vhost. *)
Lemma defaultConfig_user_on_first_vhost_witness :
  let s' := after (defaultConfig slashJoin) ownVHostState in
  slotOK (cmd ownVHostState) = true /\
  ~ In configFlag (Cmd.Args (cmd ownVHostState)) /\
  jid.Equal (Cmd.user (cmd ownVHostState)) jid.zero = true /\
  result (defaultConfig slashJoin) ownVHostState = Ret tt /\
  Cmd.user (cmd s') = jid.mkJID "me" "example.org" /\
  Cmd.pass (cmd s') = "password" /\
  Cmd.deferF (cmd s') = [CtlFunc ["register"; "me"; "example.org"; "password"]].
Proof.
  intros s'.
  assert (noFlag : ~ In configFlag (Cmd.Args (cmd ownVHostState))).
  { intros [e|[]]. discriminate e. }
  assert (certOK : Config.VHosts (configOf (cmd ownVHostState)) = [] ->
                   certFails (os ownVHostState) "localhost" = false)
    by (intros _; reflexivity).
  exact (conj eq_refl
           (conj noFlag
              (conj eq_refl
                 (defaultConfig_user_on_first_vhost slashJoin ownVHostState
                    eq_refl noFlag eq_refl certOK)))).
Defined.

(** C6 as stated fails: with the caller's own vhost and no user recorded,
    [defaultConfig] succeeds and the identity it synthesizes is at
    "example.org", not at the default hostname. *)
Lemma defaultConfig_user_domain_not_default :
  let s' := after (defaultConfig slashJoin) ownVHostState in
  Cmd.user (cmd ownVHostState) = jid.zero /\
  Config.VHosts (configOf (cmd ownVHostState)) = ["example.org"] /\
  result (defaultConfig slashJoin) ownVHostState = Ret tt /\
  jid.Domainpart (Cmd.user (cmd s')) = "example.org" /\
  jid.Domainpart (Cmd.user (cmd s')) <> "localhost".
Proof.
  cbv zeta. repeat split. discriminate.
Qed.

(** [Listen_twice_last_port] with two different ports. *)
Lemma Listen_twice_last_port_witness :
  let s := mkSt (integration.fresh cmdName sampleDir)
                (with_answers [Bound 5222 true; Bound 40001 true] quiet) in
  let s2 := after ListenC2S (after ListenC2S s) in
  slotOK (cmd s) = true /\
  answers (os s) = [Bound 5222 true; Bound 40001 true] /\
  result ListenC2S s = Ret tt /\
  result ListenC2S (after ListenC2S s) = Ret tt /\
  Config.C2SPort (configOf (cmd (after ListenC2S s))) = 5222%Z /\
  Config.C2SPort (configOf (cmd s2)) = 40001%Z /\
  answers (os stuckListenerState) = [Bound 5222 false] /\
  result ListenC2S stuckListenerState = Err ErrClose /\
  cmd (after ListenC2S stuckListenerState) = cmd stuckListenerState.
Proof.
  intros s s2.
  destruct (Listen_twice_last_port s 5222 40001 [] eq_refl eq_refl)
    as ((first & second & port1 & port2 & _) & _ & order).
  destruct (order stuckListenerState 5222%Z [] eq_refl) as (failed & same & _).
  exact (conj eq_refl
           (conj eq_refl
              (conj first
                 (conj second
                    (conj port1 (conj port2 (conj eq_refl (conj failed same)))))))).
Defined.

(** [TrustAll_effect] in a sequence with options before and after. *)
Lemma TrustAll_effect_witness :
  let before := [OVHost ["example.org"]; OModules ["mam"]] in
  let later := [OListenC2S; ODefaultConfig] in
  let s := mkSt (integration.fresh cmdName sampleDir)
                (with_answers [Bound 5222 true] quiet) in
  let s' := after (integration.apply (map (run slashJoin) (before ++ OTrustAll :: later))) s in
  slotOK (cmd ownUserState) = true /\
  Config.Modules (configOf (cmd (after TrustAll ownUserState))) = ["mam"; "trustall"] /\
  Cmd.cfgF (cmd (after TrustAll ownUserState))
  = [("mod_trustall.lua", StringWriter trustScript)] /\
  result (integration.apply (map (run slashJoin) (before ++ OTrustAll :: later))) s = Ret tt /\
  result (render slashJoin vhostLines) s' = Ret tt /\
  forallb structured later = true /\
  In ("mod_trustall.lua", StringWriter trustScript) (Cmd.cfgF (cmd s')) /\
  In (EvWrite (slashJoin (Cmd.cfgDir (cmd s')) "mod_trustall.lua") trustScript)
     (trace (os (after (render slashJoin vhostLines) s'))) /\
  In "trustall" (Config.Modules (configOf (cmd s'))).
Proof.
  intros before later s s'.
  destruct (TrustAll_effect slashJoin vhostLines) as (_ & alone & anywhere).
  destruct (anywhere before later s eq_refl) as (queued & written & on).
  pose proof (f_equal (fun r => Config.Modules (configOf (cmd (snd r))))
                (alone ownUserState eq_refl)) as mods.
  pose proof (f_equal (fun r => Cmd.cfgF (cmd (snd r)))
                (alone ownUserState eq_refl)) as files.
  exact (conj eq_refl
           (conj mods
              (conj files
                 (conj eq_refl
                    (conj eq_refl
                       (conj eq_refl
                          (conj queued (conj (written eq_refl) (on eq_refl))))))))).
Defined.

(** C8 as stated fails: [TrustAll] has been applied with success, and the
    explicit config file applied after it leaves a Configuration Value whose
    module list has no "trustall"; the config file that is queued is
    rendered from that list.  The script file is still queued. *)
Lemma TrustAll_then_ConfigFile_drops_module :
  let opts := map (run slashJoin) [OTrustAll; OConfigFile Config.zero] in
  let s' := after (integration.apply opts) freshState in
  result (integration.apply opts) freshState = Ret tt /\
  Config.Modules (configOf (cmd s')) = [] /\
  ~ In "trustall" (Config.Modules (configOf (cmd s'))) /\
  configWriters (Cmd.cfgF (cmd s')) = [TmplWriter Config.zero] /\
  In ("mod_trustall.lua", StringWriter trustScript) (Cmd.cfgF (cmd s')).
Proof.
  cbv zeta. split; [reflexivity|]. split; [reflexivity|].
  split; [intros []|]. split; [reflexivity|]. left. reflexivity.
Qed.

(** * Examples: the further properties at concrete builders *)

(** [Listen_error_keeps_builder] at a sample builder. *)
Lemma Listen_error_keeps_builder_witness :
  result ListenC2S stuckListenerState = Err ErrClose /\
  result ListenS2S freshState = Err ErrBind /\
  cmd (after ListenC2S stuckListenerState) = cmd stuckListenerState /\
  cmd (after ListenS2S freshState) = cmd freshState.
Proof.
  destruct (Listen_error_keeps_builder stuckListenerState) as (c2s & _).
  destruct (Listen_error_keeps_builder freshState) as (_ & s2s).
  destruct (c2s ErrClose eq_refl) as [_ same].
  destruct (s2s ErrBind eq_refl) as [_ same'].
  exact (conj eq_refl (conj eq_refl (conj same same'))).
Defined.

(** [Listen_both_ports] at a sample builder. *)
Lemma Listen_both_ports_witness :
  slotOK (cmd twoListenersState) = true /\
  answers (os twoListenersState) = [Bound 5222 true; Bound 5269 true] /\
  configOf (cmd (after (ListenC2S ;; ListenS2S) twoListenersState))
  = Config.mk 5222 5269 [] [] /\
  configOf (cmd (after (ListenS2S ;; ListenC2S) twoListenersState))
  = Config.mk 5269 5222 [] [].
Proof.
  destruct (Listen_both_ports twoListenersState 5222 5269 [] eq_refl eq_refl)
    as [c2sFirst s2sFirst].
  exact (conj eq_refl
           (conj eq_refl
              (conj (f_equal (fun r => configOf (cmd (snd r))) c2sFirst)
                 (f_equal (fun r => configOf (cmd (snd r))) s2sFirst)))).
Defined.

(** [foreign_slot_panics] at a sample builder. *)
Lemma foreign_slot_panics_witness :
  Cmd.Config (cmd foreignState) = Some (Foreign "ejabberd.Config") /\
  ~ In configFlag (Cmd.Args (cmd foreignState)) /\
  VHost ["example.org"] foreignState = (Panic PanicTypeAssertion, foreignState) /\
  defaultConfig slashJoin foreignState = (Panic PanicTypeAssertion, foreignState).
Proof.
  destruct (foreign_slot_panics slashJoin "ejabberd.Config" foreignState eq_refl)
    as (vhost & _ & _ & _ & assembly & _).
  assert (noFlag : ~ In configFlag (Cmd.Args (cmd foreignState))).
  { intros [e|[]]. discriminate e. }
  exact (conj eq_refl (conj noFlag (conj (vhost _) (assembly noFlag)))).
Defined.

(** [defaultConfig_idempotent] at a sample builder. *)
Lemma defaultConfig_idempotent_witness :
  result (defaultConfig slashJoin) freshState = Ret tt /\
  (defaultConfig slashJoin ;; defaultConfig slashJoin) freshState
  = defaultConfig slashJoin freshState.
Proof.
  exact (conj eq_refl (defaultConfig_idempotent slashJoin freshState eq_refl)).
Defined.

(** [defaultConfig_ready] at a sample builder. *)
Lemma defaultConfig_ready_witness :
  let s' := after (defaultConfig slashJoin) ownVHostState in
  slotOK (cmd ownVHostState) = true /\
  ~ In configFlag (Cmd.Args (cmd ownVHostState)) /\
  jid.Parse "me@example.org" = Some (jid.mkJID "me" "example.org") /\
  result (defaultConfig slashJoin) ownVHostState = Ret tt /\
  Cmd.Args (cmd s') = ["prosody"; "--config"; "/tmp/prosody/prosody.cfg.lua"] /\
  Cmd.cfgF (cmd s')
  = [("prosody.cfg.lua", TmplWriter (Config.mk 0 0 ["example.org"] []))] /\
  Cmd.user (cmd s') = jid.mkJID "me" "example.org".
Proof.
  intros s'.
  assert (noFlag : ~ In configFlag (Cmd.Args (cmd ownVHostState))).
  { intros [e|[]]. discriminate e. }
  assert (certOK : Config.VHosts (configOf (cmd ownVHostState)) = [] ->
                   certFails (os ownVHostState) "localhost" = false)
    by (intros _; reflexivity).
  destruct (defaultConfig_ready slashJoin ownVHostState (jid.mkJID "me" "example.org")
              eq_refl noFlag certOK (fun _ => eq_refl))
    as (done & args & files & _ & user).
  exact (conj eq_refl
           (conj noFlag (conj eq_refl (conj done (conj args (conj files user)))))).
Defined.

(** [defaultConfig_cert_refused] at a sample builder. *)
Lemma defaultConfig_cert_refused_witness :
  slotOK (cmd refusedState) = true /\
  ~ In configFlag (Cmd.Args (cmd refusedState)) /\
  Config.VHosts (configOf (cmd refusedState)) = [] /\
  certFails (os refusedState) "localhost" = true /\
  defaultConfig slashJoin refusedState
  = (Err (ErrCert "localhost"), put Config.zero refusedState).
Proof.
  assert (noFlag : ~ In configFlag (Cmd.Args (cmd refusedState))).
  { intros [e|[]]. discriminate e. }
  exact (conj eq_refl
           (conj noFlag
              (conj eq_refl
                 (conj eq_refl
                    (defaultConfig_cert_refused slashJoin refusedState
                       eq_refl noFlag eq_refl eq_refl))))).
Defined.

(** [defaultConfig_restraint] at a sample builder. *)
Lemma defaultConfig_restraint_witness :
  Config.VHosts (configOf (cmd ownUserState)) <> [] /\
  jid.Equal (Cmd.user (cmd ownUserState)) jid.zero = false /\
  os (after (defaultConfig slashJoin) ownUserState) = os ownUserState /\
  Cmd.deferF (cmd (after (defaultConfig slashJoin) ownUserState)) = [].
Proof.
  destruct (defaultConfig_restraint slashJoin ownUserState) as [noCert noUser].
  assert (given : Config.VHosts (configOf (cmd ownUserState)) <> []) by discriminate.
  exact (conj given (conj eq_refl (conj (noCert given) (noUser eq_refl)))).
Defined.

(** [Test_sets_config_flag] at a sample builder. *)
Lemma Test_sets_config_flag_witness :
  let opts := [VHost ["example.org"]; ListenC2S; ListenS2S] in
  result (Test slashJoin opts) twoListenersState = Ret tt /\
  In configFlag (Cmd.Args (cmd (after (Test slashJoin opts) twoListenersState))).
Proof.
  intros opts.
  exact (conj eq_refl (proj1 (Test_sets_config_flag slashJoin opts twoListenersState eq_refl))).
Defined.

(** [Test_plain_options] at a sample builder. *)
Lemma Test_plain_options_witness :
  let opts := [OVHost ["example.org"]; OCreateUser "admin@example.org" "secret"; OTrustAll;
               OListenC2S] in
  let s' := after (Test slashJoin (map (run slashJoin) opts)) twoListenersState in
  forallb plain opts = true /\
  ~ In configFlag (Cmd.Args (cmd twoListenersState)) /\
  result (Test slashJoin (map (run slashJoin) opts)) twoListenersState = Ret tt /\
  Cmd.Args (cmd s') = ["prosody"; "--config"; "/tmp/prosody/prosody.cfg.lua"] /\
  configWriters (Cmd.cfgF (cmd s'))
  = [TmplWriter (Config.mk 5222 0 ["example.org"] ["trustall"])] /\
  (exists args : list string,
      CtlFunc ["register"; "admin"; "example.org"; "secret"] = CtlFunc args /\
      trace (os (after (runDeferred slashJoin
                          (CtlFunc ["register"; "admin"; "example.org"; "secret"])) s'))
      = trace (os s')
        ++ [EvRun ("prosodyctl" :: "--config" :: "/tmp/prosody/prosody.cfg.lua" :: args)]).
Proof.
  intros opts s'.
  assert (noFlag : ~ In configFlag (Cmd.Args (cmd twoListenersState))).
  { intros [e|[]]. discriminate e. }
  destruct (Test_plain_options slashJoin vhostLines opts twoListenersState
              eq_refl noFlag eq_refl) as (args & writers & _ & _ & deferred).
  exact (conj eq_refl
           (conj noFlag
              (conj eq_refl
                 (conj args (conj writers (deferred _ (or_introl eq_refl))))))).
Defined.

(** [New_plain_options_no_config] at a sample builder. *)
Lemma New_plain_options_no_config_witness :
  let opts := [OVHost ["example.org"]; OTrustAll; OListenC2S] in
  let s' := after (New (map (run slashJoin) opts)) twoListenersState in
  forallb plain opts = true /\
  result (New (map (run slashJoin) opts)) twoListenersState = Ret tt /\
  Cmd.Args (cmd s') = ["prosody"] /\
  configWriters (Cmd.cfgF (cmd s')) = [].
Proof.
  intros opts s'.
  destruct (New_plain_options_no_config slashJoin opts twoListenersState eq_refl)
    as (args & writers & _).
  exact (conj eq_refl (conj eq_refl (conj args writers))).
Defined.

(** [TrustAll_repeated] at a sample builder. *)
Lemma TrustAll_repeated_witness :
  let s' := after (integration.apply (repeat TrustAll 2)) ownUserState in
  slotOK (cmd ownUserState) = true /\
  Config.Modules (configOf (cmd s')) = ["mam"; "trustall"; "trustall"] /\
  Cmd.cfgF (cmd s')
  = [("mod_trustall.lua", StringWriter trustScript);
     ("mod_trustall.lua", StringWriter trustScript)].
Proof.
  intros s'.
  destruct (TrustAll_repeated 2 ownUserState eq_refl) as (_ & mods & files).
  exact (conj eq_refl (conj mods files)).
Defined.

(** [VHost_Modules_compose] at a sample builder. *)
Lemma VHost_Modules_compose_witness :
  slotOK (cmd freshState) = true /\
  (VHost ["a.example"] ;; VHost ["b.example"]) freshState
  = VHost ["a.example"; "b.example"] freshState /\
  (VHost ["a.example"] ;; Modules ["mam"]) freshState
  = (Modules ["mam"] ;; VHost ["a.example"]) freshState.
Proof.
  destruct (VHost_Modules_compose ["a.example"] ["b.example"] freshState eq_refl)
    as (joined & _ & _).
  destruct (VHost_Modules_compose ["a.example"] ["mam"] freshState eq_refl)
    as (_ & _ & swapped).
  exact (conj eq_refl (conj joined swapped)).
Defined.

(** [CreateUser_twice] at a sample builder. *)
Lemma CreateUser_twice_witness :
  jid.Parse "admin@example.org" = Some (jid.mkJID "admin" "example.org") /\
  jid.Parse "guest@example.org" = Some (jid.mkJID "guest" "example.org") /\
  Cmd.user (cmd (after (CreateUser "admin@example.org" "secret" ;;
                        CreateUser "guest@example.org" "hello") freshState))
  = jid.mkJID "guest" "example.org" /\
  Cmd.deferF (cmd (after (CreateUser "admin@example.org" "secret" ;;
                          CreateUser "guest@example.org" "hello") freshState))
  = [CtlFunc ["register"; "admin"; "example.org"; "secret"];
     CtlFunc ["register"; "guest"; "example.org"; "hello"]].
Proof.
  pose proof (CreateUser_twice "admin@example.org" "secret" "guest@example.org" "hello"
                _ _ freshState eq_refl eq_refl) as both.
  exact (conj eq_refl
           (conj eq_refl
              (conj (f_equal (fun r => Cmd.user (cmd (snd r))) both)
                 (f_equal (fun r => Cmd.deferF (cmd (snd r))) both)))).
Defined.

(** [ConfigFile_twice] at a sample builder. *)
Lemma ConfigFile_twice_witness :
  let c1 := Config.mk 0 0 ["a.example"] [] in
  let c2 := Config.mk 0 0 ["b.example"] [] in
  let s' := after (ConfigFile slashJoin c1 ;; ConfigFile slashJoin c2) freshState in
  Cmd.cfgF (cmd freshState) = [] /\
  vhostLines (mkTmplData c1 sampleDir) = Some "VirtualHost a.example" /\
  vhostLines (mkTmplData c2 sampleDir) = Some "VirtualHost b.example" /\
  result (render slashJoin vhostLines) s' = Ret tt /\
  trace (os (after (render slashJoin vhostLines) s'))
  = [EvWrite "/tmp/prosody/prosody.cfg.lua" "VirtualHost a.example";
     EvWrite "/tmp/prosody/prosody.cfg.lua" "VirtualHost b.example"].
Proof.
  intros c1 c2 s'.
  destruct (ConfigFile_twice slashJoin vhostLines c1 c2 freshState)
    as (_ & _ & _ & _ & rendered).
  destruct (rendered _ _ eq_refl eq_refl eq_refl) as [done written].
  exact (conj eq_refl (conj eq_refl (conj eq_refl (conj done written)))).
Defined.
